(** * Land-cover change detection: transition codes, reclassification, statistics

    A shallow embedding of the table logic of [ChangeDetection.py]
    ([change_rast], [change_summary], [change_to_from]) and of the statistics
    step of [LandscapeChange.py] ([tabLcTypes]).

    Conventions of the embedding.
    - Python integers are [Z]; Python strings are [string]; a Python list is a
      [list].
    - A Python exception is a value of [PyErr]; code that can raise returns a
      [result].
    - An attribute table is the list of its rows, in cursor order; a cursor
      loop that updates rows in place is a map over that list, which stops at
      the first row whose body raises.
    - The quotients [Count * 900 / 10000] and [Count / total * 100] are taken
      in exact rational arithmetic ([Q]); the binary rounding of the
      interpreter's floating-point numbers and of the [Float] column that
      stores them is outside the model. *)

From Stdlib Require Import ZArith QArith List Bool Lia.
From Stdlib Require Import Strings.Ascii Strings.String.
Import ListNotations.

Local Open Scope Z_scope.

(** ** Exceptions and results *)

(** The built-in exceptions the modelled code can raise. *)
Inductive PyErr : Type :=
| IndexError          (* [xs[0]] on an empty list *)
| ValueError          (* [int(s)] on a string that is not a number *)
| ZeroDivisionError.  (* [a / 0] *)

(** In Python's exception hierarchy [IndexError] derives from [LookupError];
    the other two do not ([ValueError] derives from [Exception],
    [ZeroDivisionError] from [ArithmeticError]). *)
Definition is_LookupError (e : PyErr) : bool :=
  match e with
  | IndexError => true
  | ValueError | ZeroDivisionError => false
  end.

Inductive result (A : Type) : Type :=
| Ok  (a : A)
| Err (e : PyErr).
Arguments Ok {A} a.
Arguments Err {A} e.

Definition bind {A B} (m : result A) (k : A -> result B) : result B :=
  match m with
  | Ok a => k a
  | Err e => Err e
  end.

Notation "x <- m ;; k" := (bind m (fun x => k))
  (at level 61, m at next level, right associativity).

(** A loop [for r in curs: body(r)] over the rows of a table: rows are visited
    in order and the first exception ends the loop. *)
Fixpoint for_rows {A B} (body : A -> result B) (rows : list A) : result (list B) :=
  match rows with
  | [] => Ok []
  | r :: rest =>
      r' <- body r ;;
      rest' <- for_rows body rest ;;
      Ok (r' :: rest')
  end.

(** ** Python list primitives *)

(** [x in xs] on a list of integers. *)
Definition py_in (x : Z) (xs : list Z) : bool := existsb (Z.eqb x) xs.

(** [xs[0]]. *)
Definition py_first {A} (xs : list A) : result A :=
  match xs with
  | [] => Err IndexError
  | x :: _ => Ok x
  end.

(** [sum(xs)]. *)
Definition py_sum (xs : list Z) : Z := fold_left Z.add xs 0.

(** ** Decimal text: [str(n)] and [int(s)] *)

Definition digit_char (d : Z) : ascii := ascii_of_nat (48 + Z.to_nat d).

(** Value of a decimal digit character, if it is one. *)
Definition digit_val (c : ascii) : option Z :=
  let n := Z.of_nat (nat_of_ascii c) in
  if (48 <=? n) && (n <=? 57) then Some (n - 48) else None.

(** Digits of a non-negative number, most significant first, pushed in front
    of [acc]. [fuel] bounds the number of digits. *)
Fixpoint str_digits (fuel : nat) (n : Z) (acc : string) : string :=
  match fuel with
  | O => acc
  | S fuel' =>
      let acc' := String (digit_char (n mod 10)) acc in
      if n <? 10 then acc' else str_digits fuel' (n / 10) acc'
  end.

(** [str(n)] for an integer [n]: a minus sign for negatives, then the decimal
    digits without leading zeros. *)
Definition py_str (n : Z) : string :=
  let m := Z.abs n in
  let ds := str_digits (S (Z.to_nat m)) m EmptyString in
  if n <? 0 then String "-"%char ds else ds.

(** Reading a run of digits, left to right, after the value [acc] read so
    far. Any other character is a [ValueError]. *)
Fixpoint int_digits (s : string) (acc : Z) : result Z :=
  match s with
  | EmptyString => Ok acc
  | String c s' =>
      match digit_val c with
      | Some d => int_digits s' (acc * 10 + d)
      | None => Err ValueError
      end
  end.

(** [int(s)] on the strings the code builds (concatenations of [str]
    results): an optional sign, then at least one digit. Surrounding blanks
    and digit-group underscores, which [int] also accepts, never occur in
    such strings. *)
Definition py_int (s : string) : result Z :=
  match s with
  | EmptyString => Err ValueError
  | String "-"%char EmptyString | String "+"%char EmptyString => Err ValueError
  | String "-"%char s' => n <- int_digits s' 0 ;; Ok (- n)
  | String "+"%char s' => int_digits s' 0
  | _ => int_digits s 0
  end.

(** ** Combined codes *)

(** The positional base of the combined code: the literal [100] of
    [change_rast]. *)
Definition BASE : Z := 100.

(** [change_rast], the raster expression [Int((t1*100) + t2)] and the list
    entry [int(c[0]*100) + int(i[0])]: both are the integer
    [t1 * 100 + t2] on integer category values. *)
Definition encode (t1 t2 : Z) : Z := t1 * 100 + t2.

(** Modelled from the spec: the source has no decoding function (it recovers
    the pair of a code by scanning the list of all combinations, see
    [find_cls]); section 4.1 of the specification defines
    [decode(code) = (code div BASE, code mod BASE)]. *)
Definition decode (code : Z) : Z * Z := (code / BASE, code mod BASE).

(** ** Tables *)

(** A raster attribute table as the engine builds it: one row per raster
    value, with the number of pixels holding it. *)
Record FreqRow : Type := mkFreqRow {
  fr_Value : Z;
  fr_Count : Z
}.

(** A category of a land-cover raster: the pair [[a[0], a[1]]] read from the
    fields [Value] and [CoverClass]. *)
Record Category : Type := mkCategory {
  cat_value : Z;
  cat_name : string
}.

(** An entry [[code, c, i]] of the list [cls] of [change_rast]. *)
Record ClsEntry : Type := mkCls {
  cls_code : Z;
  cls_start : Category;
  cls_end : Category
}.

(** A row of the change raster's table once [change_rast] has filled its
    fields. *)
Record ChgRow : Type := mkChgRow {
  Value : Z;
  Count : Z;
  start_class : Z;
  start_class_name : string;
  end_class : Z;
  end_class_name : string;
  change_type : string
}.

(** A row of ["tmp_tab"]: a copy of a change-raster row with the added field
    [reclass]. *)
Record TmpRow : Type := mkTmpRow {
  tmp_row : ChgRow;
  reclass : Z
}.

(** A table row with the statistics columns a function adds to it: the
    area in hectares and a percentage, which stays null ([None]) on the rows
    the calculation does not visit. *)
Record StatRow (R : Type) : Type := mkStatRow {
  st_row : R;
  area_ha : Q;
  perc : option Q
}.
Arguments mkStatRow {R} _ _ _.
Arguments st_row {R} _.
Arguments area_ha {R} _.
Arguments perc {R} _.

(** ** Statistics expressions *)

(** The field expression ["(!Count! * 900) / 10000"], the same text in
    [change_rast], [change_summary] and [change_to_from]. *)
Definition area_ha_expr (count : Z) : Q := (inject_Z (count * 900) / 10000)%Q.

(** The field expression ["(!Count! / " + str(total_cells) + ") * 100"]:
    dividing by a zero total raises. *)
Definition perc_expr (total_cells count : Z) : result Q :=
  if total_cells =? 0 then Err ZeroDivisionError
  else Ok ((inject_Z count / inject_Z total_cells) * 100)%Q.

(** [sum([int(a[0]) for a in SearchCursor(tab, ["Count"])])]. *)
Definition total_cells {R} (count : R -> Z) (tab : list R) : Z :=
  py_sum (map count tab).

(** The area calculation that each function of [ChangeDetection.py] runs on
    its output table: the column [area_ha] is added and computed on every
    row; the percentage column does not exist yet. No cell size is passed
    in: the expression carries the literal [900]. *)
Definition calc_area {R} (count : R -> Z) (tab : list R) : list (StatRow R) :=
  map (fun r => mkStatRow r (area_ha_expr (count r)) None) tab.

(** The percentage calculation that follows: [total_cells] is summed over
    the rows of the view selected by [in_view], and the expression is then
    evaluated once per row of that view, and only there; the other rows
    keep a null percentage. *)
Definition calc_perc {R} (count : R -> Z) (in_view : R -> bool)
    (tab : list (StatRow R)) : result (list (StatRow R)) :=
  let view := filter (fun s => in_view (st_row s)) tab in
  let total := total_cells (fun s => count (st_row s)) view in
  for_rows (fun s =>
      if in_view (st_row s)
      then p <- perc_expr total (count (st_row s)) ;;
           Ok (mkStatRow (st_row s) (area_ha s) (Some p))
      else Ok s)
    tab.

(** ** [change_rast] *)

(** The list [cls] of all combinations:
    [for c in cls_t1: [cls.append([int(c[0]*100) + int(i[0]), c, i]) for i in cls_t2]]. *)
Definition cls_append (c : Category) (cls : list ClsEntry) (i : Category)
  : list ClsEntry :=
  cls ++ [mkCls (encode (cat_value c) (cat_value i)) c i].

Definition mk_cls (cls_t1 cls_t2 : list Category) : list ClsEntry :=
  fold_left (fun cls c => fold_left (cls_append c) cls_t2 cls) cls_t1 [].

(** [[i for i in cls if i[0] == r[0]][0]]. *)
Definition find_cls (cls : list ClsEntry) (v : Z) : result ClsEntry :=
  py_first (filter (fun i => cls_code i =? v) cls).

(** The body of the update cursor of [change_rast]. *)
Definition change_rast_row (cls : list ClsEntry) (r : FreqRow) : result ChgRow :=
  v <- find_cls cls (fr_Value r) ;;
  let r1 := cat_value (cls_start v) in
  let r2 := cat_name (cls_start v) in
  let r3 := cat_value (cls_end v) in
  let r4 := cat_name (cls_end v) in
  let r5 := if negb (r1 =? r3) then (r2 ++ " to " ++ r4)%string
            else "No change"%string in
  Ok (mkChgRow (fr_Value r) (fr_Count r) r1 r2 r3 r4 r5).

(** The statistics of [change_rast]: areas, then percentages of the whole
    table. *)
Definition change_rast_stats (rows : list ChgRow) : result (list (StatRow ChgRow)) :=
  calc_perc Count (fun _ => true) (calc_area Count rows).

(** [change_rast] from the attribute table of the combined raster on: the
    categories of the two periods, the fields of each row, the statistics
    of the whole table. *)
Definition change_rast (cls_t1 cls_t2 : list Category) (tab : list FreqRow)
  : result (list (StatRow ChgRow)) :=
  rows <- for_rows (change_rast_row (mk_cls cls_t1 cls_t2)) tab ;;
  change_rast_stats rows.

(** ** [change_summary] *)

(** The body of the update cursor of [change_summary]: the value of
    [reclass] for a row with start class [sc] and end class [ec]. *)
Definition reclass_of (start_cls end_cls : list Z) (backwards : bool)
    (sc ec : Z) : Z :=
  let comb_class := start_cls ++ end_cls in
  if py_in sc start_cls && py_in ec start_cls then 1
  else if py_in sc start_cls && py_in ec end_cls then 2
  else if py_in sc start_cls && negb (py_in ec comb_class) then 3
  else if py_in sc end_cls && py_in ec start_cls then 4
  else if negb (py_in sc comb_class) && py_in ec start_cls then
    if backwards then 5 else 4
  else 0.

(** The reclassification table ["tmp_tab"] of [change_summary]. *)
Definition change_summary_tab (start_cls end_cls : list Z) (backwards : bool)
    (chg_rast : list ChgRow) : list TmpRow :=
  map (fun r => mkTmpRow r
         (reclass_of start_cls end_cls backwards (start_class r) (end_class r)))
      chg_rast.

(** The code block [fn(val, sn, en, bw)] that names the classes; a value
    outside [0..5] falls off the end of the function. *)
Definition fn (val : Z) (sn en : string) (bw : bool) : option string :=
  if val =? 0 then Some ("not " ++ sn ++ " in either time period")%string
  else if val =? 1 then Some (sn ++ " in both time periods")%string
  else if val =? 2 then Some (sn ++ " to " ++ en)%string
  else if val =? 3 then Some (sn ++ " to non-" ++ en ++ " class")%string
  else if val =? 4 then
    if bw then Some (en ++ " to " ++ sn)%string
    else Some ("non-" ++ sn ++ " class to " ++ sn)%string
  else if val =? 5 then Some ("non-" ++ en ++ " class to " ++ sn)%string
  else None.

(** The view [where_clause="Value IN (1, 2, 3)"]. *)
Definition value_in_1_2_3 (r : FreqRow) : bool :=
  (fr_Value r =? 1) || (fr_Value r =? 2) || (fr_Value r =? 3).

(** The statistics of [change_summary], on the attribute table of the
    reclassified raster [out_rast]: areas on every row, percentages on the
    rows of the view only, relative to the view's total. *)
Definition change_summary_stats (out_rast : list FreqRow)
  : result (list (StatRow FreqRow)) :=
  calc_perc fr_Count value_in_1_2_3 (calc_area fr_Count out_rast).

(** ** [change_to_from] *)

(** The body of the update cursor of [change_to_from], for the text [repl]
    of the first start class. The fields the branch assigns are rebuilt, the
    others are copied. *)
Definition change_to_from_row (start_cls : list Z) (start_cls_nm repl : string)
    (r : ChgRow) : result TmpRow :=
  let sc := start_class r in
  let ec := end_class r in
  if py_in sc start_cls then
    if py_in ec start_cls then
      (* no change *)
      Ok (mkTmpRow
            (mkChgRow (Value r) (Count r) sc (start_class_name r)
                      ec (end_class_name r)
                      (start_cls_nm ++ " both time periods")%string)
            1)
    else
      (* change from target *)
      r0 <- py_int repl ;;
      r4 <- py_int (repl ++ py_str ec)%string ;;
      Ok (mkTmpRow
            (mkChgRow (Value r) (Count r) r0 start_cls_nm
                      ec (end_class_name r)
                      (start_cls_nm ++ " to " ++ end_class_name r)%string)
            r4)
  else
    if py_in ec start_cls then
      (* change to target *)
      r2 <- py_int repl ;;
      r4 <- py_int (py_str sc ++ repl)%string ;;
      Ok (mkTmpRow
            (mkChgRow (Value r) (Count r) sc (start_class_name r)
                      r2 start_cls_nm
                      (start_class_name r ++ " to " ++ start_cls_nm)%string)
            r4)
    else
      (* not part of target class either period *)
      Ok (mkTmpRow
            (mkChgRow (Value r) (Count r) sc (start_class_name r)
                      ec (end_class_name r)
                      ("Not " ++ start_cls_nm ++ " either time period")%string)
            0).

(** The reclassification table of [change_to_from]:
    [repl = str(start_cls[0])], then the cursor loop. *)
Definition change_to_from_tab (start_cls : list Z) (start_cls_nm : string)
    (chg_rast : list ChgRow) : result (list TmpRow) :=
  t <- py_first start_cls ;;
  let repl := py_str t in
  for_rows (change_to_from_row start_cls start_cls_nm repl) chg_rast.

(** The statistics of [change_to_from], on the attribute table of the
    reclassified raster: every row takes part. *)
Definition change_to_from_stats (out_rast : list FreqRow)
  : result (list (StatRow FreqRow)) :=
  calc_perc fr_Count (fun _ => true) (calc_area fr_Count out_rast).

(** ** [tabLcTypes] *)

(** The hectares expression ["!Count!*0.09"]. *)
Definition tabLcTypes_ha (count : Z) : Q := (inject_Z count * 0.09)%Q.

(** The acres expression ["!Count!*0.2223948429"]. *)
Definition tabLcTypes_ac (count : Z) : Q := (inject_Z count * 0.2223948429)%Q.

(** ** Readings of the specification, for comparison with the code *)

(** Section 4.3: the six-class rules as an ordered list of
    (predicate, outcome class); the first rule whose predicate holds gives
    the class, and class 0 is the default. *)
Definition spec_rules (startSet endSet : list Z) (backwards : bool)
  : list ((Z -> Z -> bool) * Z) :=
  let comb sc := py_in sc startSet || py_in sc endSet in
  [ (fun sc ec => py_in sc startSet && py_in ec startSet, 1);
    (fun sc ec => py_in sc startSet && py_in ec endSet, 2);
    (fun sc ec => py_in sc startSet && negb (comb ec), 3);
    (fun sc ec => py_in sc endSet && py_in ec startSet, 4);
    (fun sc ec => negb (comb sc) && py_in ec startSet,
       if backwards then 5 else 4) ].

Fixpoint first_match (rules : list ((Z -> Z -> bool) * Z)) (sc ec : Z) : Z :=
  match rules with
  | [] => 0
  | (p, c) :: rest => if p sc ec then c else first_match rest sc ec
  end.

(** Section 4.4: the collapsed code of a pair, for the canonical value
    [targetValue] of [targetSet]. *)
Definition spec_collapse (targetSet : list Z) (targetValue sc ec : Z) : Z :=
  if py_in sc targetSet then
    if py_in ec targetSet then 1 else targetValue * BASE + ec
  else
    if py_in ec targetSet then sc * BASE + targetValue else 0.

(** Section 4.5: [areaHectares = pixelCount * cellAreaM2 / 10000]. *)
Definition spec_area_ha (pixelCount : Z) (cellAreaM2 : Q) : Q :=
  (inject_Z pixelCount * cellAreaM2 / 10000)%Q.

(** Number of decimal digits of a non-negative number ([1] for [0]). *)
Definition ndigits (n : Z) : Z := Z.of_nat (String.length (py_str n)).

(** A string whose first character is a decimal digit. *)
Definition starts_with_digit (s : string) : Prop :=
  match s with
  | EmptyString => False
  | String c _ => exists d, digit_val c = Some d
  end.

(** The entry of [cls] for a pair of categories. *)
Definition cls_entry (c i : Category) : ClsEntry :=
  mkCls (encode (cat_value c) (cat_value i)) c i.

(** Category values the encoder is valid for. *)
Definition in_domain (v : Z) : Prop := 0 <= v < BASE.

(** The code of [change_to_from] for a pair, in arithmetic: the digits of
    the first target value [t] and of the other value, side by side. *)
Definition concat_collapse (start_cls : list Z) (t sc ec : Z) : Z :=
  if py_in sc start_cls then
    if py_in ec start_cls then 1 else t * 10 ^ ndigits ec + ec
  else
    if py_in ec start_cls then sc * 10 ^ ndigits t + t else 0.

(** The row [change_to_from] writes for a row of the change raster, in
    arithmetic, for the first target value [t]. *)
Definition collapse_row (start_cls : list Z) (start_cls_nm : string) (t : Z)
    (r : ChgRow) : TmpRow :=
  let sc := start_class r in
  let ec := end_class r in
  let code := concat_collapse start_cls t sc ec in
  if py_in sc start_cls then
    if py_in ec start_cls then
      mkTmpRow (mkChgRow (Value r) (Count r) sc (start_class_name r)
                  ec (end_class_name r)
                  (start_cls_nm ++ " both time periods")%string) code
    else
      mkTmpRow (mkChgRow (Value r) (Count r) t start_cls_nm
                  ec (end_class_name r)
                  (start_cls_nm ++ " to " ++ end_class_name r)%string) code
  else
    if py_in ec start_cls then
      mkTmpRow (mkChgRow (Value r) (Count r) sc (start_class_name r)
                  t start_cls_nm
                  (start_class_name r ++ " to " ++ start_cls_nm)%string) code
    else
      mkTmpRow (mkChgRow (Value r) (Count r) sc (start_class_name r)
                  ec (end_class_name r)
                  ("Not " ++ start_cls_nm ++ " either time period")%string) code.

(** Rows whose start and end classes are not negative. *)
Definition nonneg_classes (r : ChgRow) : Prop :=
  0 <= start_class r /\ 0 <= end_class r.

(** The rows of the example of section 8, as rows of a change raster:
    codes 1, 2, 3 with 10, 30, 60 pixels. *)
Definition example_rows : list ChgRow :=
  [ mkChgRow 1 10 0 "Undefined" 1 "Open Water" "Undefined to Open Water";
    mkChgRow 2 30 0 "Undefined" 2 "Developed" "Undefined to Developed";
    mkChgRow 3 60 0 "Undefined" 3 "Agriculture" "Undefined to Agriculture" ].

(** ** Raster cells and map algebra

    A cell of a raster holds an integer or NoData ([None]). The local
    operators of the raster calculator give NoData where an operand they
    read is NoData; [Con] reads its condition and the branch the condition
    selects. *)

Definition cell_eqb (x : option Z) (k : Z) : option bool :=
  option_map (fun v => v =? k) x.

Definition cell_or (a b : option bool) : option bool :=
  match a, b with
  | Some x, Some y => Some (x || y)
  | _, _ => None
  end.

Definition cell_add (x : option Z) (k : Z) : option Z :=
  option_map (fun v => v + k) x.

(** [raster < k] on a raster of distances. *)
Definition cell_ltb (x : option Q) (k : Q) : option bool :=
  option_map (fun d => negb (Qle_bool k d)) x.

Definition Con {A} (c : option bool) (t f : option A) : option A :=
  match c with
  | None => None
  | Some true => t
  | Some false => f
  end.

(** A remap table ["old new;old new;..."]: [None] is the entry [NODATA]. *)
Definition remap : Type := list (Z * option Z).

Definition remap_find (tab : remap) (v : Z) : option (option Z) :=
  option_map snd (find (fun p => fst p =? v) tab).

(** [Reclassify(raster, "Value", tab, out, "DATA")] on one cell: a value
    missing from the table is kept. *)
Definition reclassify_DATA (tab : remap) (cell : option Z) : option Z :=
  match cell with
  | None => None
  | Some v =>
      match remap_find tab v with
      | Some new => new
      | None => Some v
      end
  end.

(** [Reclassify(raster, "Value", tab, "NODATA")] on one cell: a value
    missing from the table becomes NoData. *)
Definition reclassify_NODATA (tab : remap) (cell : option Z) : option Z :=
  match cell with
  | None => None
  | Some v =>
      match remap_find tab v with
      | Some new => new
      | None => None
      end
  end.

(** ** [addCoverClass] *)

(** The assignments [d[k] = name] of the code block for the schema
    ["NLCD"], in order. *)
Definition covClass_NLCD : list (Z * string) :=
  [ (0, "Unclassified"); (11, "Open Water");
    (21, "Developed, Open Space"); (22, "Developed, Low Intensity");
    (23, "Developed, Medium Intensity"); (24, "Developed, High Intensity");
    (31, "Barren, Natural"); (32, "Barren, Anthropogenic");
    (41, "Deciduous Forest"); (42, "Evergreen Forest"); (43, "Mixed Forest");
    (52, "Shrub/Scrub"); (56, "Shrub/Scrub successional");
    (71, "Herbaceous"); (75, "Harvested/Disturbed");
    (81, "Hay/Pasture"); (82, "Cultivated Crops");
    (90, "Woody Wetlands"); (95, "Emergent Herbaceous Wetlands") ]%string.

(** The assignments of the code block for any other schema. *)
Definition covClass_Gen : list (Z * string) :=
  [ (0, "Undefined"); (1, "Open Water"); (2, "Developed");
    (3, "Agriculture"); (4, "Natural"); (5, "Successional");
    (6, "Harvested/Disturbed") ]%string.

(** [d[val]] after the assignments [items]: the last assignment to the key
    counts; [None] stands for the [KeyError] of a key never assigned. *)
Definition dict_get (items : list (Z * string)) (val : Z) : option string :=
  fold_left (fun found kv => if fst kv =? val then Some (snd kv) else found)
            items None.

(** The function [covClass(val)] that [addCoverClass] applies to the field
    [Value] of each row. *)
Definition covClass (schema : string) (val : Z) : option string :=
  if String.eqb schema "NLCD" then dict_get covClass_NLCD val
  else dict_get covClass_Gen val.

(** ** [reclassGeneral] *)

(** ["0 NODATA;11 1;21 2;22 2;23 2;24 2;31 4;32 2;41 4;42 4;43 4;52 5;56 5;71 5;75 6;81 3;82 3;90 4;95 4"] *)
Definition reclassGeneral_rclsTab : remap :=
  [ (0, None); (11, Some 1); (21, Some 2); (22, Some 2); (23, Some 2);
    (24, Some 2); (31, Some 4); (32, Some 2); (41, Some 4); (42, Some 4);
    (43, Some 4); (52, Some 5); (56, Some 5); (71, Some 5); (75, Some 6);
    (81, Some 3); (82, Some 3); (90, Some 4); (95, Some 4) ].

(** The value [reclassGeneral] writes for a cell. *)
Definition reclassGeneral (cell : option Z) : option Z :=
  reclassify_DATA reclassGeneral_rclsTab cell.

(** ** [reclassForestChange] *)

(** The raster calculation of [reclassForestChange] on one cell,
    [Con((lc == 52) | (lc == 71), Con(chg == 11, lc + 4, lc), lc)],
    run under [EnvManager(extent=clipShp, mask=clipShp, ...)]: [inside]
    tells whether the cell lies within [clipShp] (every cell does when
    [clipShp] is [None]); a cell outside it comes out as NoData. *)
Definition reclassForestChange (inside : bool) (inLC inChangeProd : option Z)
  : option Z :=
  if inside then
    Con (cell_or (cell_eqb inLC 52) (cell_eqb inLC 71))
        (Con (cell_eqb inChangeProd 11) (cell_add inLC 4) inLC)
        inLC
  else None.

(** ** [reclassBarren] *)

(** The remap table of the reference raster, by schema. *)
Definition reclassBarren_rclsTab (schema : string) : remap :=
  if String.eqb schema "1992" then
    [ (0, None); (11, Some 31); (21, Some 32); (22, Some 32); (23, Some 32);
      (31, Some 31); (32, Some 32); (33, Some 32); (41, Some 32);
      (42, Some 32); (43, Some 32); (51, Some 32); (61, Some 32);
      (71, Some 32); (81, Some 32); (82, Some 32); (83, Some 32);
      (84, Some 32); (85, Some 32); (91, Some 31); (92, Some 31) ]
  else
    [ (0, None); (11, Some 31); (21, Some 32); (22, Some 32); (23, Some 32);
      (24, Some 32); (31, Some 31); (32, Some 32); (41, Some 32);
      (42, Some 32); (43, Some 32); (52, Some 32); (71, Some 32);
      (81, Some 32); (82, Some 32); (90, Some 31); (95, Some 31) ].

(** The first step of [reclassBarren] on one cell of the reference
    raster. *)
Definition reclassBarren_ref (schema : string) (refCell : option Z) : option Z :=
  reclassify_DATA (reclassBarren_rclsTab schema) refCell.

(** The final raster calculation of [reclassBarren] on one cell:
    [Con(in == 31, Con(ref == 31, 31, Con(ref == 32, 32, Con(eDist32 < 100, 32, exp31))), in)]. *)
Definition reclassBarren (inRast refRast : option Z) (eDist32 : option Q)
    (exp31 : option Z) : option Z :=
  Con (cell_eqb inRast 31)
      (Con (cell_eqb refRast 31) (Some 31)
         (Con (cell_eqb refRast 32) (Some 32)
            (Con (cell_ltb eDist32 100) (Some 32) exp31)))
      inRast.

(** ** [GetElapsedTime] ([Helper.py], Python 2: [/] on integers is floor
    division)

    The difference [t2 - t1] is a [timedelta], given here by its fields
    [days] and [seconds]. *)
Definition GetElapsedTime_fields (days seconds : Z) : Z * Z * Z * Z :=
  let d := days in
  let m := seconds / 60 in
  let s := seconds mod 60 in
  let h := m / 60 in
  let m := m mod 60 in
  (d, h, m, s).

Definition GetElapsedTime (days seconds : Z) : string :=
  let '(d, h, m, s) := GetElapsedTime_fields days seconds in
  (py_str d ++ " days, " ++ py_str h ++ " hours, " ++ py_str m
   ++ " minutes, " ++ py_str s ++ " seconds")%string.

(** The forest-change recoding undone: 56 back to 52 and 75 back to 71. *)
Definition undo_forest_change (v : Z) : Z :=
  if v =? 56 then 52 else if v =? 75 then 71 else v.

(** What [change_rast] writes on a row whose value is the code of a pair of
    categories of the two rasters. *)
Definition change_rast_row_spec (cls_t1 cls_t2 : list Category) (total : Z)
    (r : FreqRow) (s : StatRow ChgRow) : Prop :=
  exists c i,
    In c cls_t1 /\ In i cls_t2 /\
    fr_Value r = encode (cat_value c) (cat_value i) /\
    decode (fr_Value r) = (cat_value c, cat_value i) /\
    st_row s
    = mkChgRow (fr_Value r) (fr_Count r)
        (cat_value c) (cat_name c) (cat_value i) (cat_name i)
        (if cat_value c =? cat_value i then "No change"%string
         else (cat_name c ++ " to " ++ cat_name i)%string) /\
    area_ha s = area_ha_expr (fr_Count r) /\
    perc s = Some (inject_Z (fr_Count r) / inject_Z total * 100)%Q.

(** Rows whose two classes have two decimal digits, as NLCD classes do. *)
Definition two_digit_classes (r : ChgRow) : Prop :=
  10 <= start_class r < 100 /\ 10 <= end_class r < 100.

(** ** The land-type rasters of [ReClassifyNLCD.py]

    The [RemapValue] lists in use, over the sixteen classes they all list.
    The rasters are made with
    [Reclassify(inraster, "Value", remap, "NODATA")]. *)
Definition nlcd_classes : list Z :=
  [11; 12; 21; 22; 23; 24; 31; 41; 42; 43; 52; 71; 81; 82; 90; 95].

(** For Wetland we only want 90 and 95. *)
Definition remap_wetland : remap :=
  [ (11, Some 0); (12, Some 0); (21, Some 0); (22, Some 0); (23, Some 0);
    (24, Some 0); (31, Some 0); (41, Some 0); (42, Some 0); (43, Some 0);
    (52, Some 0); (71, Some 0); (81, Some 0); (82, Some 0); (90, Some 1);
    (95, Some 1) ].

(** For Open Area we want 31, 71, 81, 82. *)
Definition remap_Open : remap :=
  [ (11, Some 0); (12, Some 0); (21, Some 0); (22, Some 0); (23, Some 0);
    (24, Some 0); (31, Some 1); (41, Some 0); (42, Some 0); (43, Some 0);
    (52, Some 0); (71, Some 1); (81, Some 1); (82, Some 1); (90, Some 0);
    (95, Some 0) ].

(** For Water we want 11. *)
Definition remap_water : remap :=
  [ (11, Some 1); (12, Some 0); (21, Some 0); (22, Some 0); (23, Some 0);
    (24, Some 0); (31, Some 0); (41, Some 0); (42, Some 0); (43, Some 0);
    (52, Some 0); (71, Some 0); (81, Some 0); (82, Some 0); (90, Some 0);
    (95, Some 0) ].

(** For ShrubScrub we want 52. *)
Definition remap_ShrubScrub : remap :=
  [ (11, Some 0); (12, Some 0); (21, Some 0); (22, Some 0); (23, Some 0);
    (24, Some 0); (31, Some 0); (41, Some 0); (42, Some 0); (43, Some 0);
    (52, Some 1); (71, Some 0); (81, Some 0); (82, Some 0); (90, Some 0);
    (95, Some 0) ].

(** For Deciduous/Mix: 41 -> 100 and 43 -> 50. *)
Definition remap_decidmix : remap :=
  [ (11, Some 0); (12, Some 0); (21, Some 0); (22, Some 0); (23, Some 0);
    (24, Some 0); (31, Some 0); (41, Some 100); (42, Some 0); (43, Some 50);
    (52, Some 0); (71, Some 0); (81, Some 0); (82, Some 0); (90, Some 0);
    (95, Some 0) ].

(** For Evergreen/Mix: 42 -> 100 and 43 -> 50. *)
Definition remap_evermix : remap :=
  [ (11, Some 0); (12, Some 0); (21, Some 0); (22, Some 0); (23, Some 0);
    (24, Some 0); (31, Some 0); (41, Some 0); (42, Some 100); (43, Some 50);
    (52, Some 0); (71, Some 0); (81, Some 0); (82, Some 0); (90, Some 0);
    (95, Some 0) ].

(** A cell value as a number, NoData counting for 0. *)
Definition cell_or_0 (c : option Z) : Z :=
  match c with Some v => v | None => 0 end.

(** ** The call of [fn] in [change_summary]

    [change_summary] does not call [fn] itself: it writes the text of a
    call, with the two names pasted between single quotes, and the field
    calculation evaluates that text on each row. *)

(** [str(backwards)] for a boolean. *)
Definition py_str_bool (b : bool) : string :=
  if b then "True"%string else "False"%string.

(** ["fn(!Value!,'" + start_cls_nm + "','" + end_cls_nm + "'," + str(backwards) + ")"] *)
Definition fn_call (start_cls_nm end_cls_nm : string) (backwards : bool)
  : string :=
  ("fn(!Value!,'" ++ start_cls_nm ++ "','" ++ end_cls_nm ++ "',"
   ++ py_str_bool backwards ++ ")")%string.

(** Characters that stand for themselves between single quotes and are
    not touched by the field substitution: letters, digits, the space and
    the signs [, - . / _] (so no quote, backslash, line break or [!]). *)
Definition plain_char (c : ascii) : bool :=
  let n := nat_of_ascii c in
  ((65 <=? n) && (n <=? 90))%nat || ((97 <=? n) && (n <=? 122))%nat ||
  ((48 <=? n) && (n <=? 57))%nat || (n =? 32)%nat ||
  ((44 <=? n) && (n <=? 47))%nat || (n =? 95)%nat.

Definition plain_name (s : string) : bool :=
  forallb plain_char (list_ascii_of_string s).

(** The text left after the prefix [p], if the text starts with it. *)
Fixpoint strip_prefix (p s : string) : option string :=
  match p, s with
  | EmptyString, _ => Some s
  | String a p', String b s' =>
      if Ascii.eqb a b then strip_prefix p' s' else None
  | String _ _, EmptyString => None
  end.

(** Reading a quoted name after its opening quote: the plain characters up
    to the closing quote, and the text after it. Any other character
    before the closing quote is outside what is read here. *)
Fixpoint read_quoted (s : string) : option (string * string) :=
  match s with
  | EmptyString => None
  | String c s' =>
      if Ascii.eqb c "'" then Some (EmptyString, s')
      else if plain_char c then
        match read_quoted s' with
        | Some (name, rest) => Some (String c name, rest)
        | None => None
        end
      else None
  end.

(** The value of a call text on a row whose [Value] is [val]: the text must
    be a call of [fn] on the field, two quoted plain names and [True] or
    [False]; [None] when it is not (the expression then fails or means
    something else), or when [fn] returns nothing. *)
Definition eval_fn_call (text : string) (val : Z) : option string :=
  match strip_prefix "fn(!Value!,'" text with
  | None => None
  | Some t1 =>
      match read_quoted t1 with
      | None => None
      | Some (sn, t2) =>
          match strip_prefix ",'" t2 with
          | None => None
          | Some t3 =>
              match read_quoted t3 with
              | None => None
              | Some (en, t4) =>
                  if String.eqb t4 ",True)" then fn val sn en true
                  else if String.eqb t4 ",False)" then fn val sn en false
                  else None
              end
          end
      end
  end.

(** * Properties *)

(** ** The result monad and row loops *)

Lemma for_rows_ok_map {A B} (body : A -> result B) (g : A -> B) (rows : list A) :
  (forall r, In r rows -> body r = Ok (g r)) ->
  for_rows body rows = Ok (map g rows).
Proof.
  induction rows as [|r rest IH]; intros Hall; simpl.
  - reflexivity.
  - rewrite (Hall r (or_introl eq_refl)). simpl.
    rewrite IH by (intros; apply Hall; right; assumption).
    reflexivity.
Qed.

(** A loop whose body can only raise [e], and does on some row, raises [e]. *)
Lemma for_rows_err {A B} (body : A -> result B) (e : PyErr) (rows : list A) :
  (forall r e', body r = Err e' -> e' = e) ->
  (exists r, In r rows /\ body r = Err e) ->
  for_rows body rows = Err e.
Proof.
  intros Honly. induction rows as [|r rest IH]; intros [r0 [Hin Hr0]].
  - destruct Hin.
  - simpl. destruct (body r) as [b|e'] eqn:Hb.
    + simpl. destruct Hin as [->|Hin]; [congruence|].
      rewrite IH by (exists r0; auto). reflexivity.
    + simpl. f_equal. eauto.
Qed.

(** ** Decimal text *)

Lemma digit_val_char (d : Z) : 0 <= d < 10 -> digit_val (digit_char d) = Some d.
Proof.
  intros H.
  assert (Hd : d = 0 \/ d = 1 \/ d = 2 \/ d = 3 \/ d = 4 \/
               d = 5 \/ d = 6 \/ d = 7 \/ d = 8 \/ d = 9) by lia.
  repeat (destruct Hd as [->|Hd]; [reflexivity|]). subst d. reflexivity.
Qed.

Lemma int_digits_app (s1 s2 : string) (acc : Z) :
  int_digits (s1 ++ s2) acc = (x <- int_digits s1 acc ;; int_digits s2 x).
Proof.
  revert acc. induction s1 as [|c s1 IH]; intros acc; simpl.
  - reflexivity.
  - destruct (digit_val c); [apply IH | reflexivity].
Qed.

Lemma string_app_assoc (s1 s2 s3 : string) :
  ((s1 ++ s2) ++ s3 = s1 ++ (s2 ++ s3))%string.
Proof.
  induction s1 as [|c s1 IH]; simpl; [reflexivity | now rewrite IH].
Qed.

Lemma string_app_length (s1 s2 : string) :
  String.length (s1 ++ s2) = (String.length s1 + String.length s2)%nat.
Proof.
  induction s1 as [|c s1 IH]; simpl; [reflexivity | now rewrite IH].
Qed.

(** The accumulator of [str_digits] is a suffix of its result. *)
Lemma str_digits_acc (fuel : nat) (n : Z) (acc : string) :
  str_digits fuel n acc = (str_digits fuel n EmptyString ++ acc)%string.
Proof.
  revert n acc. induction fuel as [|fuel IH]; intros n acc; simpl.
  - reflexivity.
  - destruct (n <? 10).
    + reflexivity.
    + rewrite IH.
      rewrite (IH (n / 10) (String (digit_char (n mod 10)) EmptyString)).
      rewrite string_app_assoc. reflexivity.
Qed.

(** Reading back the digits of [n] after [a] shifts [a] by as many decimal
    places as [n] has digits. *)
Lemma int_digits_str_digits (fuel : nat) (n a : Z) :
  0 <= n < Z.of_nat fuel ->
  int_digits (str_digits fuel n EmptyString) a
  = Ok (a * 10 ^ Z.of_nat (String.length (str_digits fuel n EmptyString)) + n).
Proof.
  revert n a. induction fuel as [|fuel IH]; intros n a Hn.
  - simpl in Hn. lia.
  - cbn [str_digits]. destruct (n <? 10) eqn:Hlt.
    + apply Z.ltb_lt in Hlt.
      rewrite Z.mod_small by lia.
      cbn [int_digits String.length]. rewrite digit_val_char by lia.
      cbn [int_digits]. reflexivity.
    + apply Z.ltb_ge in Hlt.
      rewrite str_digits_acc, int_digits_app, string_app_length.
      assert (Hq : 0 <= n / 10 < Z.of_nat fuel).
      { split; [apply Z.div_pos; lia|].
        assert (n / 10 < n) by (apply Z.div_lt; lia). lia. }
      rewrite (IH _ a Hq). cbn [bind int_digits String.length].
      rewrite digit_val_char by (apply Z.mod_pos_bound; lia).
      cbn [int_digits]. apply f_equal.
      rewrite Nat2Z.inj_add. change (Z.of_nat 1) with 1.
      rewrite Z.pow_add_r by lia. change (10 ^ 1) with 10.
      pose proof (Z.div_mod n 10 ltac:(lia)). lia.
Qed.

Lemma str_digits_starts (fuel : nat) (n : Z) (acc : string) :
  0 <= n -> starts_with_digit acc -> starts_with_digit (str_digits fuel n acc).
Proof.
  revert n acc. induction fuel as [|fuel IH]; intros n acc Hn Hacc; simpl.
  - assumption.
  - assert (Hd : starts_with_digit (String (digit_char (n mod 10)) acc)).
    { exists (n mod 10). apply digit_val_char, Z.mod_pos_bound. lia. }
    destruct (n <? 10); [assumption|].
    apply IH; [apply Z.div_pos; lia | assumption].
Qed.

Lemma str_digits_S_starts (fuel : nat) (n : Z) :
  0 <= n -> starts_with_digit (str_digits (S fuel) n EmptyString).
Proof.
  intros Hn. cbn [str_digits].
  assert (Hd : starts_with_digit (String (digit_char (n mod 10)) EmptyString)).
  { exists (n mod 10). apply digit_val_char, Z.mod_pos_bound. lia. }
  destruct (n <? 10); [assumption|].
  apply str_digits_starts; [apply Z.div_pos; lia | assumption].
Qed.

Lemma py_str_nonneg (n : Z) :
  0 <= n -> py_str n = str_digits (S (Z.to_nat n)) n EmptyString.
Proof.
  intros Hn. unfold py_str.
  rewrite Z.abs_eq by assumption.
  destruct (n <? 0) eqn:Hlt; [apply Z.ltb_lt in Hlt; lia | reflexivity].
Qed.

Lemma py_str_starts (n : Z) : 0 <= n -> starts_with_digit (py_str n).
Proof.
  intros Hn. rewrite py_str_nonneg by assumption.
  apply str_digits_S_starts. assumption.
Qed.

Lemma starts_with_digit_app (s t : string) :
  starts_with_digit s -> starts_with_digit (s ++ t).
Proof. destruct s; simpl; [intros [] | trivial]. Qed.

(** On a string that starts with a digit, [int] reads digits from the first
    character on. *)
Lemma py_int_digits (s : string) :
  starts_with_digit s -> py_int s = int_digits s 0.
Proof.
  destruct s as [|c s]; simpl; [intros [] |].
  intros [d Hd].
  destruct c as [[] [] [] [] [] [] [] []]; try discriminate Hd; reflexivity.
Qed.

(** [int(str(n)) == n] for a non-negative [n]. *)
Lemma int_digits_py_str (n a : Z) :
  0 <= n -> int_digits (py_str n) a = Ok (a * 10 ^ ndigits n + n).
Proof.
  intros Hn. unfold ndigits. rewrite py_str_nonneg by assumption.
  apply int_digits_str_digits. lia.
Qed.

Lemma py_int_py_str (n : Z) : 0 <= n -> py_int (py_str n) = Ok n.
Proof.
  intros Hn. rewrite py_int_digits by (apply py_str_starts; assumption).
  rewrite int_digits_py_str by assumption. apply f_equal. lia.
Qed.

(** [int(str(a) + str(b))] for non-negative [a] and [b]: the digits of [a]
    shifted left by the number of digits of [b], plus [b]. *)
Lemma py_int_concat (a b : Z) :
  0 <= a -> 0 <= b ->
  py_int (py_str a ++ py_str b) = Ok (a * 10 ^ ndigits b + b).
Proof.
  intros Ha Hb.
  rewrite py_int_digits
    by (apply starts_with_digit_app, py_str_starts; assumption).
  rewrite int_digits_app, int_digits_py_str by assumption.
  cbn [bind]. rewrite int_digits_py_str by assumption.
  apply f_equal. lia.
Qed.

Lemma ndigits_1 (n : Z) : 0 <= n < 10 -> ndigits n = 1.
Proof.
  intros Hn. unfold ndigits. rewrite py_str_nonneg by lia.
  cbn [str_digits].
  destruct (n <? 10) eqn:Hlt; [reflexivity | apply Z.ltb_ge in Hlt; lia].
Qed.

Lemma ndigits_2 (n : Z) : 10 <= n < 100 -> ndigits n = 2.
Proof.
  intros Hn. unfold ndigits. rewrite py_str_nonneg by lia.
  destruct (Z.to_nat n) as [|fuel] eqn:Hf; [lia|].
  cbn [str_digits].
  destruct (n <? 10) eqn:Hlt; [apply Z.ltb_lt in Hlt; lia|].
  assert (Hq : n / 10 < 10) by (apply Z.div_lt_upper_bound; lia).
  apply Z.ltb_lt in Hq. rewrite Hq. reflexivity.
Qed.

(** ** Six-class reclassification ([change_summary]) *)

Lemma py_in_app (x : Z) (xs ys : list Z) :
  py_in x (xs ++ ys) = py_in x xs || py_in x ys.
Proof. apply existsb_app. Qed.

Lemma py_in_true (x : Z) (xs : list Z) : py_in x xs = true <-> In x xs.
Proof.
  unfold py_in. rewrite existsb_exists. split.
  - intros [y [Hin Heq]]. apply Z.eqb_eq in Heq. now subst.
  - intros Hin. exists x. split; [assumption | apply Z.eqb_refl].
Qed.

Lemma py_in_false (x : Z) (xs : list Z) : py_in x xs = false <-> ~ In x xs.
Proof.
  rewrite <- py_in_true. destruct (py_in x xs); split; congruence.
Qed.

(** The [if]/[elif] chain of the cursor body is the first-match evaluation
    of the ordered rules of section 4.3. *)
Lemma reclass_of_first_match (start_cls end_cls : list Z) (backwards : bool)
    (sc ec : Z) :
  reclass_of start_cls end_cls backwards sc ec
  = first_match (spec_rules start_cls end_cls backwards) sc ec.
Proof.
  unfold reclass_of, spec_rules, first_match.
  rewrite !py_in_app. reflexivity.
Qed.

(** C1. With start classes {4}, end classes {2} and [backwards] off, the
    pairs (4,4), (4,2), (4,7), (2,4), (9,4), (9,9) are reclassified to
    1, 2, 3, 4, 4, 0; and for all inputs the class is the one of the first
    matching rule in the order of section 4.3. *)
Theorem C1_six_class_example :
  reclass_of [4] [2] false 4 4 = 1 /\
  reclass_of [4] [2] false 4 2 = 2 /\
  reclass_of [4] [2] false 4 7 = 3 /\
  reclass_of [4] [2] false 2 4 = 4 /\
  reclass_of [4] [2] false 9 4 = 4 /\
  reclass_of [4] [2] false 9 9 = 0 /\
  (forall start_cls end_cls backwards sc ec,
     reclass_of start_cls end_cls backwards sc ec
     = first_match (spec_rules start_cls end_cls backwards) sc ec).
Proof.
  repeat (split; [reflexivity|]).
  intros. apply reclass_of_first_match.
Qed.

(** C3. Two runs that differ only in [backwards]: a pair whose start value
    is in neither set and whose end value is a start class is class 5 with
    the flag on and class 4 with it off; a pair from an end class (that is
    not also a start class) to a start class is class 4 either way. *)
Theorem C3_backwards_flag (start_cls end_cls : list Z) (other sc ec : Z) :
  In ec start_cls ->
  ~ In other start_cls -> ~ In other end_cls ->
  In sc end_cls -> ~ In sc start_cls ->
  reclass_of start_cls end_cls true other ec = 5 /\
  reclass_of start_cls end_cls false other ec = 4 /\
  (forall backwards, reclass_of start_cls end_cls backwards sc ec = 4).
Proof.
  intros Hec Ho1 Ho2 Hsc1 Hsc2.
  apply py_in_true in Hec. apply py_in_false in Ho1. apply py_in_false in Ho2.
  apply py_in_true in Hsc1. apply py_in_false in Hsc2.
  unfold reclass_of. rewrite !py_in_app.
  rewrite Hec, Ho1, Ho2, Hsc1, Hsc2. cbn.
  split; [reflexivity | split; [reflexivity | intros backwards; reflexivity]].
Qed.

Lemma C3_backwards_flag_witness :
  reclass_of [4] [2] true 9 4 = 5 /\
  reclass_of [4] [2] false 9 4 = 4 /\
  (forall backwards, reclass_of [4] [2] backwards 2 4 = 4).
Proof.
  apply (C3_backwards_flag [4] [2] 9 2 4); cbn; lia.
Defined.

(** ** Combined codes *)

Lemma encode_div (s e : Z) : 0 <= e < BASE -> encode s e / BASE = s.
Proof.
  unfold encode, BASE. intros H.
  rewrite Z.add_comm, Z.div_add by lia. rewrite Z.div_small by lia. lia.
Qed.

Lemma encode_mod (s e : Z) : 0 <= e < BASE -> encode s e mod BASE = e.
Proof.
  unfold encode, BASE. intros H.
  rewrite Z.add_comm, Z.mod_add by lia. apply Z.mod_small. lia.
Qed.

Lemma encode_inj (s e s' e' : Z) :
  0 <= e < BASE -> 0 <= e' < BASE ->
  encode s e = encode s' e' -> s = s' /\ e = e'.
Proof. unfold encode, BASE. lia. Qed.

(** C4. Decoding an encoded pair of values of the domain gives the pair
    back. *)
Theorem C4_decode_encode (s e : Z) :
  0 <= s < BASE -> 0 <= e < BASE -> decode (encode s e) = (s, e).
Proof.
  intros _ He. unfold decode.
  rewrite encode_div, encode_mod by assumption. reflexivity.
Qed.

Lemma C4_decode_encode_witness : decode (encode 41 23) = (41, 23).
Proof.
  apply (C4_decode_encode 41 23); unfold BASE; lia.
Defined.

(** ** The list of all combinations ([change_rast]) *)

Lemma fold_cls_append (c : Category) (cls_t2 : list Category) (cls : list ClsEntry) :
  fold_left (cls_append c) cls_t2 cls = cls ++ map (cls_entry c) cls_t2.
Proof.
  revert cls. induction cls_t2 as [|i rest IH]; intros cls; simpl.
  - now rewrite app_nil_r.
  - rewrite IH. unfold cls_append. rewrite <- app_assoc. reflexivity.
Qed.

Lemma fold_cls_outer (cls_t1 cls_t2 : list Category) (cls : list ClsEntry) :
  fold_left (fun cls c => fold_left (cls_append c) cls_t2 cls) cls_t1 cls
  = cls ++ flat_map (fun c => map (cls_entry c) cls_t2) cls_t1.
Proof.
  revert cls. induction cls_t1 as [|c rest IH]; intros cls; simpl.
  - now rewrite app_nil_r.
  - rewrite IH, fold_cls_append, <- app_assoc. reflexivity.
Qed.

(** The two nested loops build the cross product, start-major. *)
Lemma mk_cls_flat_map (cls_t1 cls_t2 : list Category) :
  mk_cls cls_t1 cls_t2 = flat_map (fun c => map (cls_entry c) cls_t2) cls_t1.
Proof. unfold mk_cls. now rewrite fold_cls_outer. Qed.

Lemma mk_cls_length (cls_t1 cls_t2 : list Category) :
  List.length (mk_cls cls_t1 cls_t2) = (List.length cls_t1 * List.length cls_t2)%nat.
Proof.
  rewrite mk_cls_flat_map.
  induction cls_t1 as [|c rest IH]; simpl.
  - reflexivity.
  - now rewrite length_app, length_map, IH.
Qed.

Lemma mk_cls_In (cls_t1 cls_t2 : list Category) (v : ClsEntry) :
  In v (mk_cls cls_t1 cls_t2) <->
  exists c i, In c cls_t1 /\ In i cls_t2 /\ v = cls_entry c i.
Proof.
  rewrite mk_cls_flat_map, in_flat_map. split.
  - intros [c [Hc Hv]]. apply in_map_iff in Hv as [i [Hv Hi]].
    exists c, i. auto.
  - intros [c [i [Hc [Hi Hv]]]]. exists c. split; [assumption|].
    apply in_map_iff. exists i. auto.
Qed.

Lemma mk_cls_nth (cls_t1 cls_t2 : list Category) (a b : nat) (c i : Category) :
  nth_error cls_t1 a = Some c -> nth_error cls_t2 b = Some i ->
  nth_error (mk_cls cls_t1 cls_t2) (a * List.length cls_t2 + b) = Some (cls_entry c i).
Proof.
  rewrite mk_cls_flat_map. intros Ha Hb.
  assert (Hlt : (b < List.length cls_t2)%nat)
    by (apply nth_error_Some; congruence).
  revert a Ha. induction cls_t1 as [|c0 rest IH]; intros a Ha.
  - destruct a; discriminate.
  - destruct a as [|a]; simpl in *.
    + injection Ha as ->.
      rewrite nth_error_app1 by (rewrite length_map; lia).
      rewrite nth_error_map, Hb. reflexivity.
    + rewrite nth_error_app2 by (rewrite length_map; lia).
      rewrite length_map.
      replace (List.length cls_t2 + a * List.length cls_t2 + b - List.length cls_t2)%nat
        with (a * List.length cls_t2 + b)%nat by lia.
      apply IH. assumption.
Qed.

Lemma codes_row_NoDup (c : Category) (cls_t2 : list Category) :
  Forall (fun i => in_domain (cat_value i)) cls_t2 ->
  NoDup (map cat_value cls_t2) ->
  NoDup (map cls_code (map (cls_entry c) cls_t2)).
Proof.
  intros Hdom. induction cls_t2 as [|i rest IH]; simpl; intros Hnd.
  - constructor.
  - inversion Hnd as [|? ? Hnotin Hnd']; subst.
    inversion Hdom as [|? ? Hi Hrest]; subst.
    constructor; [|apply IH; assumption].
    intros Hin. apply Hnotin.
    rewrite map_map in Hin. apply in_map_iff in Hin as [j [Heq Hj]].
    simpl in Heq. apply in_map_iff. exists j. split; [|assumption].
    rewrite Forall_forall in Hrest.
    apply encode_inj in Heq; [tauto | apply Hrest; assumption | assumption].
Qed.

Lemma mk_cls_codes_NoDup (cls_t1 cls_t2 : list Category) :
  Forall (fun i => in_domain (cat_value i)) cls_t2 ->
  NoDup (map cat_value cls_t1) ->
  NoDup (map cat_value cls_t2) ->
  NoDup (map cls_code (mk_cls cls_t1 cls_t2)).
Proof.
  intros Hdom Hnd1 Hnd2. rewrite mk_cls_flat_map.
  induction cls_t1 as [|c rest IH]; simpl.
  - constructor.
  - inversion Hnd1 as [|? ? Hnotin Hnd1']; subst.
    rewrite map_app. apply NoDup_app.
    + apply codes_row_NoDup; assumption.
    + apply IH. assumption.
    + intros code Hin1 Hin2. apply Hnotin.
      rewrite map_map in Hin1. apply in_map_iff in Hin1 as [i [Heq1 Hi]].
      apply in_map_iff in Hin2 as [v [Heq2 Hv]].
      apply in_flat_map in Hv as [c' [Hc' Hv]].
      apply in_map_iff in Hv as [i' [Hv Hi']]. subst v code.
      simpl in Heq2. rewrite Forall_forall in Hdom.
      apply encode_inj in Heq2; [|apply Hdom; assumption ..].
      apply in_map_iff. exists c'. tauto.
Qed.

(** C5. For start and end categories with distinct values of the domain,
    [cls] has N x M entries, their codes are pairwise distinct, its entries
    are exactly the pairs of a start and an end category, and the entry of
    the a-th start category and b-th end category sits at position
    a * M + b: start-major, end-minor. *)
Theorem C5_cross_product (cls_t1 cls_t2 : list Category) :
  Forall (fun c => in_domain (cat_value c)) cls_t1 ->
  Forall (fun i => in_domain (cat_value i)) cls_t2 ->
  NoDup (map cat_value cls_t1) ->
  NoDup (map cat_value cls_t2) ->
  List.length (mk_cls cls_t1 cls_t2) = (List.length cls_t1 * List.length cls_t2)%nat /\
  NoDup (map cls_code (mk_cls cls_t1 cls_t2)) /\
  (forall v, In v (mk_cls cls_t1 cls_t2) <->
     exists c i, In c cls_t1 /\ In i cls_t2 /\
       v = mkCls (cat_value c * BASE + cat_value i) c i) /\
  (forall a b c i,
     nth_error cls_t1 a = Some c -> nth_error cls_t2 b = Some i ->
     nth_error (mk_cls cls_t1 cls_t2) (a * List.length cls_t2 + b)
     = Some (mkCls (cat_value c * BASE + cat_value i) c i)).
Proof.
  intros _ Hdom2 Hnd1 Hnd2. split; [apply mk_cls_length|].
  split; [apply mk_cls_codes_NoDup; assumption|].
  split; [apply mk_cls_In|].
  intros a b c i. apply mk_cls_nth.
Qed.

Lemma C5_cross_product_witness :
  let cls_t1 := [mkCategory 4 "Natural"; mkCategory 2 "Developed"] in
  let cls_t2 := [mkCategory 2 "Developed"; mkCategory 4 "Natural";
                 mkCategory 3 "Agriculture"] in
  List.length (mk_cls cls_t1 cls_t2) = 6%nat /\
  NoDup (map cls_code (mk_cls cls_t1 cls_t2)) /\
  (forall v, In v (mk_cls cls_t1 cls_t2) <->
     exists c i, In c cls_t1 /\ In i cls_t2 /\
       v = mkCls (cat_value c * BASE + cat_value i) c i) /\
  (forall a b c i,
     nth_error cls_t1 a = Some c -> nth_error cls_t2 b = Some i ->
     nth_error (mk_cls cls_t1 cls_t2) (a * 3 + b)
     = Some (mkCls (cat_value c * BASE + cat_value i) c i)).
Proof.
  intros cls_t1 cls_t2.
  apply (C5_cross_product cls_t1 cls_t2).
  - repeat constructor; unfold BASE; simpl; lia.
  - repeat constructor; unfold BASE; simpl; lia.
  - repeat constructor; simpl; intuition lia.
  - repeat constructor; simpl; intuition lia.
Defined.

(** ** Looking a code up in [cls] *)

Lemma find_cls_missing (cls : list ClsEntry) (v : Z) :
  ~ In v (map cls_code cls) -> find_cls cls v = Err IndexError.
Proof.
  unfold find_cls. induction cls as [|i rest IH]; simpl; intros Hnot.
  - reflexivity.
  - destruct (cls_code i =? v) eqn:Heq.
    + apply Z.eqb_eq in Heq. tauto.
    + apply IH. tauto.
Qed.

Lemma find_cls_found (cls : list ClsEntry) (v : ClsEntry) :
  NoDup (map cls_code cls) -> In v cls -> find_cls cls (cls_code v) = Ok v.
Proof.
  unfold find_cls. induction cls as [|i rest IH]; simpl; intros Hnd Hin.
  - destruct Hin.
  - inversion Hnd as [|? ? Hnotin Hnd']; subst.
    destruct Hin as [->|Hin].
    + rewrite Z.eqb_refl. reflexivity.
    + destruct (cls_code i =? cls_code v) eqn:Heq.
      * apply Z.eqb_eq in Heq. exfalso. apply Hnotin. rewrite Heq.
        apply in_map. assumption.
      * apply IH; assumption.
Qed.

(** The scan of [cls] recovers, for the code of a pair of categories of the
    two rasters, the pair that [decode] computes. *)
Lemma find_cls_decode (cls_t1 cls_t2 : list Category) (c i : Category) :
  Forall (fun i => in_domain (cat_value i)) cls_t2 ->
  NoDup (map cat_value cls_t1) -> NoDup (map cat_value cls_t2) ->
  In c cls_t1 -> In i cls_t2 ->
  let code := encode (cat_value c) (cat_value i) in
  find_cls (mk_cls cls_t1 cls_t2) code = Ok (cls_entry c i) /\
  decode code = (cat_value c, cat_value i).
Proof.
  intros Hdom Hnd1 Hnd2 Hc Hi code. split.
  - apply (find_cls_found (mk_cls cls_t1 cls_t2) (cls_entry c i)).
    + apply mk_cls_codes_NoDup; assumption.
    + apply mk_cls_In. exists c, i. auto.
  - unfold code, decode. rewrite Forall_forall in Hdom.
    rewrite encode_div, encode_mod by (apply Hdom; assumption). reflexivity.
Qed.

Lemma change_rast_row_raises (cls : list ClsEntry) (r : FreqRow) (e : PyErr) :
  change_rast_row cls r = Err e -> e = IndexError.
Proof.
  unfold change_rast_row, find_cls.
  destruct (filter _ cls); simpl; congruence.
Qed.

(** C8. When the table of the combined raster holds a value that is the code
    of no entry of [cls], [change_rast] raises [IndexError], which is a
    [LookupError]; it returns no table. *)
Theorem C8_uncovered_code_raises (cls_t1 cls_t2 : list Category)
    (tab : list FreqRow) (r : FreqRow) :
  In r tab ->
  ~ In (fr_Value r) (map cls_code (mk_cls cls_t1 cls_t2)) ->
  change_rast cls_t1 cls_t2 tab = Err IndexError /\
  is_LookupError IndexError = true.
Proof.
  intros Hin Hnot. split; [|reflexivity].
  unfold change_rast.
  rewrite (for_rows_err _ IndexError).
  - reflexivity.
  - intros r0 e'. apply change_rast_row_raises.
  - exists r. split; [assumption|].
    unfold change_rast_row. rewrite find_cls_missing by assumption.
    reflexivity.
Qed.

Lemma C8_uncovered_code_raises_witness :
  change_rast [mkCategory 4 "Natural"; mkCategory 2 "Developed"]
              [mkCategory 4 "Natural"; mkCategory 2 "Developed"]
              [mkFreqRow 404 10; mkFreqRow 909 5; mkFreqRow 402 7]
  = Err IndexError /\
  is_LookupError IndexError = true.
Proof.
  apply (C8_uncovered_code_raises _ _ _ (mkFreqRow 909 5)).
  - simpl. tauto.
  - simpl. unfold encode. simpl. intuition discriminate.
Defined.

(** ** Statistics *)

Lemma filter_all {A} (l : list A) : filter (fun _ => true) l = l.
Proof. induction l as [|a l IH]; simpl; [reflexivity | now rewrite IH]. Qed.

(** On an empty view the percentage expression is evaluated for no row:
    the step succeeds and changes nothing. *)
Lemma calc_perc_empty_view {R} (count : R -> Z) (in_view : R -> bool)
    (tab : list (StatRow R)) :
  (forall s, In s tab -> in_view (st_row s) = false) ->
  calc_perc count in_view tab = Ok tab.
Proof.
  intros Hnone. unfold calc_perc.
  rewrite (for_rows_ok_map _ (fun s => s)).
  - now rewrite map_id.
  - intros s Hs. now rewrite (Hnone s Hs).
Qed.

(** A zero total with a row in the view: the first such row raises. *)
Lemma calc_perc_zero_total {R} (count : R -> Z) (in_view : R -> bool)
    (tab : list (StatRow R)) :
  total_cells (fun s => count (st_row s))
              (filter (fun s => in_view (st_row s)) tab) = 0 ->
  (exists s, In s tab /\ in_view (st_row s) = true) ->
  calc_perc count in_view tab = Err ZeroDivisionError.
Proof.
  intros Hzero Hex. unfold calc_perc. rewrite Hzero.
  apply for_rows_err.
  - intros s e'. destruct (in_view (st_row s)); simpl; congruence.
  - destruct Hex as [s [Hin Hv]]. exists s. split; [assumption|].
    rewrite Hv. reflexivity.
Qed.

(** The percentages over a whole table. *)
Lemma calc_perc_whole_table {R} (count : R -> Z) (tab : list (StatRow R)) :
  let total := total_cells (fun s => count (st_row s)) tab in
  calc_perc count (fun _ => true) tab
  = if total =? 0
    then match tab with [] => Ok [] | _ :: _ => Err ZeroDivisionError end
    else Ok (map (fun s => mkStatRow (st_row s) (area_ha s)
                    (Some (inject_Z (count (st_row s)) / inject_Z total * 100)%Q))
               tab).
Proof.
  intros total. unfold calc_perc. rewrite filter_all. fold total.
  destruct (total =? 0) eqn:Hz.
  - destruct tab as [|s rest]; [reflexivity|].
    simpl. unfold perc_expr. rewrite Hz. reflexivity.
  - apply for_rows_ok_map. intros s _. unfold perc_expr. rewrite Hz.
    reflexivity.
Qed.

Lemma area_ha_expr_900 (count : Z) :
  (area_ha_expr count == spec_area_ha count 900)%Q.
Proof.
  unfold area_ha_expr, spec_area_ha. rewrite inject_Z_mult.
  reflexivity.
Qed.

Lemma area_ha_expr_009 (count : Z) :
  (area_ha_expr count == inject_Z count * 0.09)%Q.
Proof.
  unfold area_ha_expr. rewrite inject_Z_mult. field.
Qed.

Lemma total_cells_calc_area {R} (count : R -> Z) (tab : list R) :
  total_cells (fun s => count (st_row s)) (calc_area count tab)
  = total_cells count tab.
Proof. unfold total_cells, calc_area. rewrite map_map. reflexivity. Qed.

Lemma filter_calc_area {R} (count : R -> Z) (in_view : R -> bool) (tab : list R) :
  filter (fun s => in_view (st_row s)) (calc_area count tab)
  = calc_area count (filter in_view tab).
Proof.
  induction tab as [|r rest IH]; simpl; [reflexivity|].
  destruct (in_view r); simpl; now rewrite IH.
Qed.

(** Areas, then percentages over the whole table: what [change_rast] and
    [change_to_from] run. *)
Lemma stats_whole_table {R} (count : R -> Z) (tab : list R) :
  calc_perc count (fun _ => true) (calc_area count tab)
  = if total_cells count tab =? 0
    then match tab with [] => Ok [] | _ :: _ => Err ZeroDivisionError end
    else Ok (map (fun r => mkStatRow r (area_ha_expr (count r))
                    (Some (inject_Z (count r) / inject_Z (total_cells count tab)
                           * 100)%Q))
               tab).
Proof.
  rewrite calc_perc_whole_table. cbv zeta.
  rewrite total_cells_calc_area.
  destruct (total_cells count tab =? 0).
  - destruct tab; reflexivity.
  - unfold calc_area. rewrite map_map. reflexivity.
Qed.

(** C6, as the claim states it, fails: the area the code computes is not
    [pixelCount * cellAreaM2 / 10000] for every cell area. For a cell of
    100 square metres and 10 pixels the formula gives 0.1 hectare, the
    code 0.9. *)
Lemma C6_counterexample :
  ~ (forall (cellAreaM2 : Q) (rows : list ChgRow),
       Forall (fun s => (area_ha s == spec_area_ha (Count (st_row s)) cellAreaM2)%Q)
              (calc_area Count rows)).
Proof.
  intros H.
  specialize (H 100%Q [mkChgRow 404 10 4 "Natural" 4 "Natural" "No change"]).
  inversion H as [|? ? Hq _]; subst.
  vm_compute in Hq. discriminate Hq.
Qed.

(** C6, amended. The statistics of [change_rast] give every row the area
    [Count * 900 / 10000], the formula of the specification at the fixed
    cell area 900, and, when the counts do not sum to zero, the percentage
    [Count / total * 100]; a table with rows whose counts sum to zero
    raises [ZeroDivisionError]. On the rows (1,10), (2,30), (3,60) the row
    of code 2 gets 2.7 hectares and 30 percent. *)
Theorem C6_stats_fixed_cell_area :
  (forall rows : list ChgRow,
     let total := total_cells Count rows in
     change_rast_stats rows
     = if total =? 0
       then match rows with [] => Ok [] | _ :: _ => Err ZeroDivisionError end
       else Ok (map (fun r => mkStatRow r (area_ha_expr (Count r))
                       (Some (inject_Z (Count r) / inject_Z total * 100)%Q))
                  rows)) /\
  (forall count, (area_ha_expr count == spec_area_ha count 900)%Q) /\
  (exists s1 s2 s3 p,
     change_rast_stats example_rows = Ok [s1; s2; s3] /\
     Value (st_row s2) = 2 /\
     (area_ha s2 == 2.7)%Q /\
     perc s2 = Some p /\ (p == 30.0)%Q).
Proof.
  split; [|split].
  - intros rows total. apply stats_whole_table.
  - apply area_ha_expr_900.
  - do 4 eexists. split; [vm_compute; reflexivity|].
    repeat split; reflexivity.
Qed.

(** C7, as the claim states it, fails: with no row in the view the
    percentage step of [change_summary] raises nothing. *)
Lemma C7_counterexample :
  ~ (forall out_rast : list FreqRow,
       (forall r, In r out_rast -> value_in_1_2_3 r = false) ->
       exists e, change_summary_stats out_rast = Err e).
Proof.
  intros H.
  destruct (H [mkFreqRow 0 50]) as [e He].
  - intros r [<-|[]]. reflexivity.
  - vm_compute in He. discriminate He.
Qed.

(** C7, amended. When no row of the reclassified raster has a value in
    {1, 2, 3}, the statistics of [change_summary] succeed: every row gets
    its area and keeps a null percentage, so no number at all (no 0, no
    NaN) is produced as a percentage. *)
Theorem C7_empty_view_no_error (out_rast : list FreqRow) :
  (forall r, In r out_rast -> value_in_1_2_3 r = false) ->
  change_summary_stats out_rast
  = Ok (map (fun r => mkStatRow r (area_ha_expr (fr_Count r)) None) out_rast).
Proof.
  intros Hnone. unfold change_summary_stats.
  apply calc_perc_empty_view.
  intros s Hs. unfold calc_area in Hs.
  apply in_map_iff in Hs as [r [<- Hr]]. simpl. apply Hnone. assumption.
Qed.

Lemma C7_empty_view_no_error_witness :
  change_summary_stats [mkFreqRow 0 50; mkFreqRow 4 7]
  = Ok [mkStatRow (mkFreqRow 0 50) (area_ha_expr 50) None;
        mkStatRow (mkFreqRow 4 7) (area_ha_expr 7) None].
Proof.
  apply (C7_empty_view_no_error [mkFreqRow 0 50; mkFreqRow 4 7]).
  intros r [<-|[<-|[]]]; reflexivity.
Defined.

(** The error of the percentage step of [change_summary]: some row is in
    the view and the counts of the view sum to zero. *)
Lemma change_summary_stats_zero_total (out_rast : list FreqRow) :
  total_cells fr_Count (filter value_in_1_2_3 out_rast) = 0 ->
  (exists r, In r out_rast /\ value_in_1_2_3 r = true) ->
  change_summary_stats out_rast = Err ZeroDivisionError.
Proof.
  intros Hzero [r [Hin Hv]]. unfold change_summary_stats.
  apply calc_perc_zero_total.
  - rewrite filter_calc_area, total_cells_calc_area. assumption.
  - exists (mkStatRow r (area_ha_expr (fr_Count r)) None). split; [|assumption].
    unfold calc_area. apply in_map_iff. exists r. auto.
Qed.

(** A loop that returns gives each row the result of its body. *)
Lemma for_rows_Forall2 {A B} (body : A -> result B) (rows : list A) (out : list B) :
  for_rows body rows = Ok out ->
  Forall2 (fun r r' => body r = Ok r') rows out.
Proof.
  revert out. induction rows as [|r rest IH]; simpl; intros out H.
  - injection H as <-. constructor.
  - destruct (body r) as [r'|e] eqn:Hb; simpl in H; [|discriminate].
    destruct (for_rows body rest) as [rest'|e]; simpl in H; [|discriminate].
    injection H as <-. constructor; [assumption | apply IH; reflexivity].
Qed.

(** The percentage step leaves the areas as the area step computed them. *)
Lemma calc_perc_keeps_area {R} (count : R -> Z) (in_view : R -> bool)
    (tab out : list (StatRow R)) :
  calc_perc count in_view tab = Ok out ->
  map area_ha out = map area_ha tab.
Proof.
  unfold calc_perc. intros H. apply for_rows_Forall2 in H.
  induction H as [|s s' tab' out' Hs _ IH]; simpl; [reflexivity|].
  rewrite IH. f_equal.
  destruct (in_view (st_row s)).
  - destruct (perc_expr _ _); simpl in Hs; [|discriminate].
    injection Hs as <-. reflexivity.
  - injection Hs as <-. reflexivity.
Qed.

Lemma calc_perc_ok {R} (count : R -> Z) (in_view : R -> bool) (tab : list R) :
  let T := total_cells count (filter in_view tab) in
  T <> 0 ->
  calc_perc count in_view (calc_area count tab)
  = Ok (map (fun r =>
               if in_view r
               then mkStatRow r (area_ha_expr (count r))
                      (Some (inject_Z (count r) / inject_Z T * 100)%Q)
               else mkStatRow r (area_ha_expr (count r)) None) tab).
Proof.
  intros T HT. unfold calc_perc.
  rewrite filter_calc_area, total_cells_calc_area. fold T.
  unfold calc_area.
  rewrite (for_rows_ok_map _
    (fun s => if in_view (st_row s)
              then mkStatRow (st_row s) (area_ha s)
                     (Some (inject_Z (count (st_row s)) / inject_Z T * 100)%Q)
              else s)).
  - rewrite map_map. reflexivity.
  - intros s _. destruct (in_view (st_row s)); [|reflexivity].
    unfold perc_expr. apply Z.eqb_neq in HT. rewrite HT. reflexivity.
Qed.

Lemma Forall2_map_right {A B} (P : A -> B -> Prop) (f : A -> B) (l : list A) :
  (forall a, In a l -> P a (f a)) -> Forall2 P l (map f l).
Proof.
  induction l as [|a l IH]; simpl; intros H; constructor.
  - apply H. left. reflexivity.
  - apply IH. intros a' Ha'. apply H. right. assumption.
Qed.

(** When the counts of the view do not sum to zero, the two calculations
    return a table, with the area [Count * 900 / 10000] on every row. *)
Lemma stats_area_900 {R} (count : R -> Z) (in_view : R -> bool) (tab : list R) :
  total_cells count (filter in_view tab) <> 0 ->
  exists out,
    calc_perc count in_view (calc_area count tab) = Ok out /\
    Forall2 (fun r s =>
               st_row s = r /\
               area_ha s = area_ha_expr (count r) /\
               (area_ha s == inject_Z (count r) * 900 / 10000)%Q) tab out.
Proof.
  intros HT. eexists. split; [apply calc_perc_ok; exact HT|].
  apply Forall2_map_right. intros r _.
  destruct (in_view r); cbn [st_row area_ha];
    (split; [reflexivity|]; split; [reflexivity | apply area_ha_expr_900]).
Qed.

(** C9. Every area calculation uses the cell area 900. The expression of
    [ChangeDetection.py] is [Count * 900 / 10000], which is [Count * 0.09],
    the expression of [tabLcTypes]; it is a function of the count alone
    (no operation takes a cell area). On tables whose counts do not sum to
    zero (for [change_summary], the counts of the rows of classes 1, 2, 3),
    the statistics of [change_rast], [change_summary] and [change_to_from]
    return a table that holds that area on every row. *)
Theorem C9_cell_area_900 (rows : list ChgRow)
    (summary_rast to_from_rast : list FreqRow) :
  total_cells Count rows <> 0 ->
  total_cells fr_Count (filter value_in_1_2_3 summary_rast) <> 0 ->
  total_cells fr_Count to_from_rast <> 0 ->
  (forall count, (area_ha_expr count == inject_Z count * 900 / 10000)%Q) /\
  (forall count, (area_ha_expr count == inject_Z count * 0.09)%Q) /\
  (forall count, (tabLcTypes_ha count == inject_Z count * 900 / 10000)%Q) /\
  (exists out,
     change_rast_stats rows = Ok out /\
     Forall2 (fun r s =>
                st_row s = r /\
                area_ha s = area_ha_expr (Count r) /\
                (area_ha s == inject_Z (Count r) * 900 / 10000)%Q) rows out) /\
  (exists out,
     change_summary_stats summary_rast = Ok out /\
     Forall2 (fun r s =>
                st_row s = r /\
                area_ha s = area_ha_expr (fr_Count r) /\
                (area_ha s == inject_Z (fr_Count r) * 900 / 10000)%Q)
             summary_rast out) /\
  (exists out,
     change_to_from_stats to_from_rast = Ok out /\
     Forall2 (fun r s =>
                st_row s = r /\
                area_ha s = area_ha_expr (fr_Count r) /\
                (area_ha s == inject_Z (fr_Count r) * 900 / 10000)%Q)
             to_from_rast out).
Proof.
  intros Hrows Hsummary Hto_from.
  split; [intros; apply area_ha_expr_900|].
  split; [intros; apply area_ha_expr_009|].
  split; [intros; unfold tabLcTypes_ha; field|].
  split; [|split].
  - apply stats_area_900. rewrite filter_all. exact Hrows.
  - apply stats_area_900. exact Hsummary.
  - apply stats_area_900. rewrite filter_all. exact Hto_from.
Qed.

Lemma C9_cell_area_900_witness :
  (forall count, (area_ha_expr count == inject_Z count * 900 / 10000)%Q) /\
  (forall count, (area_ha_expr count == inject_Z count * 0.09)%Q) /\
  (forall count, (tabLcTypes_ha count == inject_Z count * 900 / 10000)%Q) /\
  (exists out,
     change_rast_stats example_rows = Ok out /\
     Forall2 (fun r s =>
                st_row s = r /\
                area_ha s = area_ha_expr (Count r) /\
                (area_ha s == inject_Z (Count r) * 900 / 10000)%Q)
             example_rows out) /\
  (exists out,
     change_summary_stats
       [mkFreqRow 0 500; mkFreqRow 1 70; mkFreqRow 2 20; mkFreqRow 3 10;
        mkFreqRow 4 5] = Ok out /\
     Forall2 (fun r s =>
                st_row s = r /\
                area_ha s = area_ha_expr (fr_Count r) /\
                (area_ha s == inject_Z (fr_Count r) * 900 / 10000)%Q)
             [mkFreqRow 0 500; mkFreqRow 1 70; mkFreqRow 2 20; mkFreqRow 3 10;
              mkFreqRow 4 5] out) /\
  (exists out,
     change_to_from_stats
       [mkFreqRow 0 50; mkFreqRow 1 30; mkFreqRow 4121 20] = Ok out /\
     Forall2 (fun r s =>
                st_row s = r /\
                area_ha s = area_ha_expr (fr_Count r) /\
                (area_ha s == inject_Z (fr_Count r) * 900 / 10000)%Q)
             [mkFreqRow 0 50; mkFreqRow 1 30; mkFreqRow 4121 20] out).
Proof.
  apply (C9_cell_area_900 example_rows
           [mkFreqRow 0 500; mkFreqRow 1 70; mkFreqRow 2 20; mkFreqRow 3 10;
            mkFreqRow 4 5]
           [mkFreqRow 0 50; mkFreqRow 1 30; mkFreqRow 4121 20]);
    vm_compute; discriminate.
Defined.

(** ** Collapsing around a target class ([change_to_from]) *)

(** One pass of the cursor body, with [repl] the text of a non-negative
    first target value: no conversion fails, and the codes are the decimal
    concatenations. *)
Lemma change_to_from_row_ok (start_cls : list Z) (nm : string) (t : Z) (r : ChgRow) :
  0 <= t -> nonneg_classes r ->
  change_to_from_row start_cls nm (py_str t) r = Ok (collapse_row start_cls nm t r).
Proof.
  intros Ht [Hsc Hec].
  unfold change_to_from_row, collapse_row, concat_collapse.
  destruct (py_in (start_class r) start_cls), (py_in (end_class r) start_cls).
  - reflexivity.
  - rewrite py_int_py_str, py_int_concat by assumption. reflexivity.
  - rewrite py_int_py_str, py_int_concat by assumption. reflexivity.
  - reflexivity.
Qed.

Lemma change_to_from_tab_ok (t : Z) (rest : list Z) (nm : string)
    (chg_rast : list ChgRow) :
  0 <= t -> Forall nonneg_classes chg_rast ->
  change_to_from_tab (t :: rest) nm chg_rast
  = Ok (map (collapse_row (t :: rest) nm t) chg_rast).
Proof.
  intros Ht Hall. unfold change_to_from_tab. simpl.
  apply for_rows_ok_map. intros r Hr.
  apply change_to_from_row_ok; [assumption|].
  rewrite Forall_forall in Hall. apply Hall. assumption.
Qed.

Lemma reclass_collapse_row (start_cls : list Z) (nm : string) (t : Z) (r : ChgRow) :
  reclass (collapse_row start_cls nm t r)
  = concat_collapse start_cls t (start_class r) (end_class r).
Proof.
  unfold collapse_row.
  destruct (py_in (start_class r) start_cls), (py_in (end_class r) start_cls);
    reflexivity.
Qed.

(** With two-digit values the concatenation is the positional code of
    section 4.4. *)
Lemma concat_collapse_two_digits (start_cls : list Z) (t sc ec : Z) :
  10 <= t < 100 -> 10 <= ec < 100 ->
  concat_collapse start_cls t sc ec = spec_collapse start_cls t sc ec.
Proof.
  intros Ht Hec. unfold concat_collapse, spec_collapse, BASE.
  rewrite (ndigits_2 t), (ndigits_2 ec) by assumption. reflexivity.
Qed.

(** C2, as the claim states it, fails: for the target {4} the pair (4,2)
    gets the code 42, not 4 * 100 + 2 = 402, and the pair (9,4) gets 94,
    not 9 * 100 + 4 = 904. *)
Lemma C2_counterexample :
  change_to_from_tab [4] "Natural"
    [mkChgRow 402 10 4 "Natural" 2 "Developed" "Natural to Developed";
     mkChgRow 904 10 9 "Other" 4 "Natural" "Other to Natural"]
  = Ok [mkTmpRow (mkChgRow 402 10 4 "Natural" 2 "Developed"
                    "Natural to Developed") 42;
        mkTmpRow (mkChgRow 904 10 9 "Other" 4 "Natural"
                    "Other to Natural") 94] /\
  spec_collapse [4] 4 4 2 = 402 /\
  spec_collapse [4] 4 9 4 = 904 /\
  ~ (forall sc ec tab,
       change_to_from_tab [4] "Natural"
         [mkChgRow (encode sc ec) 10 sc "a" ec "b" "a to b"] = Ok tab ->
       map reclass tab = [spec_collapse [4] 4 sc ec]).
Proof.
  repeat (split; [vm_compute; reflexivity|]).
  intros H. specialize (H 4 2 _ eq_refl). vm_compute in H. discriminate H.
Qed.

(** C2, amended. For a target list with first value [t] and rows with
    non-negative classes, [change_to_from] returns, and the code of a row
    is 1 when both classes are targets, 0 when neither is, the digits of
    [t] followed by those of the end class when only the start class is a
    target, and the digits of the start class followed by those of [t]
    when only the end class is. That is [t * BASE + ec], respectively
    [sc * BASE + t], when the appended value has two digits. *)
Theorem C2_collapse_concat (t : Z) (rest : list Z) (nm : string)
    (chg_rast : list ChgRow) :
  0 <= t -> Forall nonneg_classes chg_rast ->
  (exists tab,
     change_to_from_tab (t :: rest) nm chg_rast = Ok tab /\
     map reclass tab
     = map (fun r => concat_collapse (t :: rest) t (start_class r) (end_class r))
           chg_rast) /\
  (forall sc ec,
     10 <= t < 100 -> 10 <= ec < 100 ->
     concat_collapse (t :: rest) t sc ec = spec_collapse (t :: rest) t sc ec).
Proof.
  intros Ht Hall. split.
  - exists (map (collapse_row (t :: rest) nm t) chg_rast). split.
    + apply change_to_from_tab_ok; assumption.
    + rewrite map_map. apply map_ext. intros r. apply reclass_collapse_row.
  - intros sc ec. apply concat_collapse_two_digits.
Qed.

Lemma C2_collapse_concat_witness :
  exists tab,
    change_to_from_tab [4] "Natural"
      [mkChgRow 404 10 4 "Natural" 4 "Natural" "No change";
       mkChgRow 402 10 4 "Natural" 2 "Developed" "Natural to Developed";
       mkChgRow 904 10 9 "Other" 4 "Natural" "Other to Natural";
       mkChgRow 909 10 9 "Other" 9 "Other" "No change"] = Ok tab /\
    map reclass tab = [1; 42; 94; 0].
Proof.
  destruct (C2_collapse_concat 4 [] "Natural"
      [mkChgRow 404 10 4 "Natural" 4 "Natural" "No change";
       mkChgRow 402 10 4 "Natural" 2 "Developed" "Natural to Developed";
       mkChgRow 904 10 9 "Other" 4 "Natural" "Other to Natural";
       mkChgRow 909 10 9 "Other" 9 "Other" "No change"])
    as [[tab [Htab Hcodes]] _].
  - lia.
  - repeat constructor; simpl; lia.
  - exists tab. split; [exact Htab | exact Hcodes].
Defined.

(** C10. For a target list [t :: rest] (whatever [rest] holds) and rows
    with non-negative classes, [change_to_from] returns a table in which:
    a row leaving the target has start class [t] and start name the target
    name, and its code is built from [t] and the end class, whichever
    target value the row started in; a row entering the target has end
    class [t], end name the target name and a code built from the start
    class and [t]; a row with both classes in the target has code 1, equal
    classes or not. *)
Theorem C10_first_target_value (t : Z) (rest : list Z) (nm : string)
    (chg_rast : list ChgRow) :
  0 <= t -> Forall nonneg_classes chg_rast ->
  exists tab,
    change_to_from_tab (t :: rest) nm chg_rast = Ok tab /\
    Forall2 (fun r r' =>
        let sc := start_class r in
        let ec := end_class r in
        (In sc (t :: rest) -> ~ In ec (t :: rest) ->
           start_class (tmp_row r') = t /\
           start_class_name (tmp_row r') = nm /\
           end_class (tmp_row r') = ec /\
           reclass r' = t * 10 ^ ndigits ec + ec) /\
        (~ In sc (t :: rest) -> In ec (t :: rest) ->
           end_class (tmp_row r') = t /\
           end_class_name (tmp_row r') = nm /\
           start_class (tmp_row r') = sc /\
           reclass r' = sc * 10 ^ ndigits t + t) /\
        (In sc (t :: rest) -> In ec (t :: rest) -> reclass r' = 1))
      chg_rast tab.
Proof.
  intros Ht Hall.
  exists (map (collapse_row (t :: rest) nm t) chg_rast). split.
  - apply change_to_from_tab_ok; assumption.
  - apply Forall2_map_right. intros r _. cbv zeta.
    unfold collapse_row, concat_collapse.
    destruct (py_in (start_class r) (t :: rest)) eqn:Hsc;
      destruct (py_in (end_class r) (t :: rest)) eqn:Hec;
      repeat match goal with
        | H : py_in _ _ = true |- _ => apply py_in_true in H
        | H : py_in _ _ = false |- _ => apply py_in_false in H
        end;
      cbn [tmp_row reclass start_class start_class_name end_class end_class_name];
      repeat split; intros; solve [reflexivity | contradiction].
Qed.

Lemma C10_first_target_value_witness :
  exists tab,
    change_to_from_tab [41; 42] "Forest"
      [mkChgRow 4221 10 42 "Evergreen Forest" 21 "Developed, Open Space"
                "Evergreen Forest to Developed, Open Space";
       mkChgRow 8142 10 81 "Hay/Pasture" 42 "Evergreen Forest"
                "Hay/Pasture to Evergreen Forest";
       mkChgRow 4142 10 41 "Deciduous Forest" 42 "Evergreen Forest"
                "Deciduous Forest to Evergreen Forest"] = Ok tab /\
    map (fun r' => (start_class (tmp_row r'), end_class (tmp_row r'), reclass r')) tab
    = [(41, 21, 4121); (81, 41, 8141); (41, 42, 1)].
Proof.
  destruct (C10_first_target_value 41 [42] "Forest"
      [mkChgRow 4221 10 42 "Evergreen Forest" 21 "Developed, Open Space"
                "Evergreen Forest to Developed, Open Space";
       mkChgRow 8142 10 81 "Hay/Pasture" 42 "Evergreen Forest"
                "Hay/Pasture to Evergreen Forest";
       mkChgRow 4142 10 41 "Deciduous Forest" 42 "Evergreen Forest"
                "Deciduous Forest to Evergreen Forest"])
    as [tab [Htab _]].
  - lia.
  - repeat constructor; simpl; lia.
  - exists tab. split; [exact Htab|].
    vm_compute in Htab. injection Htab as <-. reflexivity.
Defined.

(** * Further properties of the code *)

(** ** The six classes of [change_summary] *)

(** The class of a row is one of 0..5, and 5 is used only when [backwards]
    is on. *)
Theorem reclass_of_range (start_cls end_cls : list Z) (backwards : bool)
    (sc ec : Z) :
  0 <= reclass_of start_cls end_cls backwards sc ec <= 5 /\
  (reclass_of start_cls end_cls backwards sc ec = 5 -> backwards = true).
Proof.
  unfold reclass_of.
  destruct (py_in sc start_cls), (py_in ec start_cls), (py_in ec end_cls),
    (py_in sc end_cls), (py_in sc (start_cls ++ end_cls)),
    (py_in ec (start_cls ++ end_cls)), backwards; cbn; split; (lia || auto).
Qed.

(** The classes 1, 2 and 3 are exactly the rows whose start class is one of
    [start_cls]: the view [Value IN (1, 2, 3)] selects what was in the
    start classes in the first period. *)
Theorem reclass_of_1_2_3 (start_cls end_cls : list Z) (backwards : bool)
    (sc ec : Z) :
  1 <= reclass_of start_cls end_cls backwards sc ec <= 3 <-> In sc start_cls.
Proof.
  rewrite <- py_in_true. unfold reclass_of. rewrite !py_in_app.
  destruct (py_in sc start_cls), (py_in ec start_cls), (py_in ec end_cls),
    (py_in sc end_cls), backwards; cbn; split; intros H;
    solve [reflexivity | lia | discriminate H].
Qed.

(** A row whose two classes are start classes is class 1 even when the
    classes are also end classes: the first test wins over the later
    ones. *)
Theorem reclass_of_start_first (start_cls end_cls : list Z) (backwards : bool)
    (sc ec : Z) :
  In sc start_cls -> In ec start_cls ->
  reclass_of start_cls end_cls backwards sc ec = 1.
Proof.
  intros Hsc Hec. apply py_in_true in Hsc. apply py_in_true in Hec.
  unfold reclass_of. rewrite Hsc, Hec. reflexivity.
Qed.

Lemma reclass_of_start_first_witness :
  reclass_of [4; 2] [2] true 2 4 = 1.
Proof.
  apply (reclass_of_start_first [4; 2] [2] true 2 4); simpl; lia.
Defined.

(** The naming function [fn] returns a name exactly for the values 0..5;
    for any other value it falls off its last [elif] and returns nothing. *)
Lemma fn_defined (val : Z) (sn en : string) (bw : bool) :
  fn val sn en bw <> None <-> 0 <= val <= 5.
Proof.
  unfold fn.
  destruct (val =? 0) eqn:H0; [apply Z.eqb_eq in H0; split; [lia | discriminate]|].
  destruct (val =? 1) eqn:H1; [apply Z.eqb_eq in H1; split; [lia | discriminate]|].
  destruct (val =? 2) eqn:H2; [apply Z.eqb_eq in H2; split; [lia | discriminate]|].
  destruct (val =? 3) eqn:H3; [apply Z.eqb_eq in H3; split; [lia | discriminate]|].
  destruct (val =? 4) eqn:H4;
    [apply Z.eqb_eq in H4; split; [lia | destruct bw; discriminate]|].
  destruct (val =? 5) eqn:H5; [apply Z.eqb_eq in H5; split; [lia | discriminate]|].
  apply Z.eqb_neq in H0, H1, H2, H3, H4, H5.
  split; [intros H; exfalso; apply H; reflexivity | lia].
Qed.

Lemma plain_char_not_quote (c : ascii) :
  plain_char c = true -> Ascii.eqb c "'" = false.
Proof.
  intros Hc. destruct (Ascii.eqb c "'") eqn:E; [|reflexivity].
  apply Ascii.eqb_eq in E. subst c. discriminate Hc.
Qed.

(** A plain name is read back whole, up to the quote that closes it. *)
Lemma read_quoted_plain (name rest : string) :
  plain_name name = true ->
  read_quoted (name ++ String "'" rest) = Some (name, rest).
Proof.
  unfold plain_name. induction name as [|c name IH]; cbn; intros Hn.
  - reflexivity.
  - apply andb_true_iff in Hn as [Hc Hname].
    rewrite (plain_char_not_quote c Hc), Hc, (IH Hname). reflexivity.
Qed.

(** With plain names the text of the call means the call. *)
Lemma eval_fn_call_plain (sn en : string) (bw : bool) (val : Z) :
  plain_name sn = true -> plain_name en = true ->
  eval_fn_call (fn_call sn en bw) val = fn val sn en bw.
Proof.
  intros Hsn Hen. unfold eval_fn_call, fn_call.
  cbn [String.append strip_prefix Ascii.eqb Bool.eqb].
  change (sn ++ String "'" (String "," (String "'" (en ++ String "'"
            (String "," (py_str_bool bw ++ ")"))))))%string
    with (sn ++ String "'" ("," ++ "'" ++ en ++ String "'"
            ("," ++ py_str_bool bw ++ ")")))%string.
  rewrite (read_quoted_plain sn _ Hsn).
  cbn [String.append strip_prefix Ascii.eqb Bool.eqb].
  rewrite (read_quoted_plain en _ Hen).
  destruct bw; reflexivity.
Qed.

(** For class names made of plain characters, the text of the call that
    [change_summary] writes evaluates, on every class the reclassification
    can produce, to a name: no row of the output is left without one. *)
Theorem fn_names_every_class (start_cls end_cls : list Z) (backwards : bool)
    (sc ec : Z) (sn en : string) :
  plain_name sn = true -> plain_name en = true ->
  exists name,
    eval_fn_call (fn_call sn en backwards)
                 (reclass_of start_cls end_cls backwards sc ec) = Some name /\
    fn (reclass_of start_cls end_cls backwards sc ec) sn en backwards
    = Some name.
Proof.
  intros Hsn Hen. rewrite eval_fn_call_plain by assumption.
  destruct (fn _ sn en backwards) as [name|] eqn:Hfn; [eauto|].
  exfalso. revert Hfn. apply fn_defined. apply reclass_of_range.
Qed.

Lemma fn_names_every_class_witness :
  exists name,
    eval_fn_call (fn_call "Forest" "Developed" false)
      (reclass_of [41; 42; 43; 52; 90] [21; 22; 23; 24; 32] false 41 21)
    = Some name /\
    fn (reclass_of [41; 42; 43; 52; 90] [21; 22; 23; 24; 32] false 41 21)
       "Forest" "Developed" false = Some name.
Proof.
  apply (fn_names_every_class [41; 42; 43; 52; 90] [21; 22; 23; 24; 32]
           false 41 21 "Forest" "Developed"); reflexivity.
Defined.

(** ** [change_rast] on a table the categories cover *)

Lemma for_rows_ok_Forall2 {A B} (body : A -> result B) (P : A -> B -> Prop)
    (rows : list A) :
  (forall r, In r rows -> exists r', body r = Ok r' /\ P r r') ->
  exists out, for_rows body rows = Ok out /\ Forall2 P rows out.
Proof.
  induction rows as [|r rest IH]; intros Hall.
  - exists []. split; [reflexivity | constructor].
  - destruct (Hall r (or_introl eq_refl)) as [r' [Hr' HP]].
    destruct IH as [out [Hout HF]].
    { intros r0 Hr0. apply Hall. right. assumption. }
    exists (r' :: out). split.
    + simpl. rewrite Hr'. simpl. rewrite Hout. reflexivity.
    + constructor; assumption.
Qed.

Lemma Forall2_map_eq {A B C} (f : A -> C) (g : B -> C) (l : list A) (l' : list B) :
  Forall2 (fun a b => g b = f a) l l' -> map g l' = map f l.
Proof.
  induction 1 as [|a b l l' Hab _ IH]; simpl; [reflexivity|].
  now rewrite Hab, IH.
Qed.

Lemma Forall2_compose_map {A B C} (P : A -> B -> Prop) (Q : A -> C -> Prop)
    (g : B -> C) (l : list A) (l' : list B) :
  Forall2 P l l' -> (forall a b, P a b -> Q a (g b)) ->
  Forall2 Q l (map g l').
Proof.
  induction 1 as [|a b l l' Hab _ IH]; simpl; intros HPQ; constructor; auto.
Qed.

(** When the categories of both rasters have distinct values, the end values
    are below 100 and not negative, every value of the table is the code of
    a pair of categories and the counts do not sum to zero, [change_rast]
    returns: each row keeps its value and count, gets the pair that
    decoding its value gives, the names of these two categories, the change
    type ("No change" when the two values are equal), its area and its
    share of the total. *)
Theorem change_rast_covered (cls_t1 cls_t2 : list Category) (tab : list FreqRow) :
  Forall (fun i => in_domain (cat_value i)) cls_t2 ->
  NoDup (map cat_value cls_t1) -> NoDup (map cat_value cls_t2) ->
  (forall r, In r tab ->
     exists c i, In c cls_t1 /\ In i cls_t2 /\
       fr_Value r = encode (cat_value c) (cat_value i)) ->
  total_cells fr_Count tab <> 0 ->
  exists out,
    change_rast cls_t1 cls_t2 tab = Ok out /\
    Forall2 (change_rast_row_spec cls_t1 cls_t2 (total_cells fr_Count tab)) tab out.
Proof.
  intros Hdom Hnd1 Hnd2 Hcov Htot.
  set (P := fun (r : FreqRow) (r' : ChgRow) =>
    exists c i,
      In c cls_t1 /\ In i cls_t2 /\
      fr_Value r = encode (cat_value c) (cat_value i) /\
      decode (fr_Value r) = (cat_value c, cat_value i) /\
      r' = mkChgRow (fr_Value r) (fr_Count r)
             (cat_value c) (cat_name c) (cat_value i) (cat_name i)
             (if cat_value c =? cat_value i then "No change"%string
              else (cat_name c ++ " to " ++ cat_name i)%string)).
  destruct (for_rows_ok_Forall2 (change_rast_row (mk_cls cls_t1 cls_t2)) P tab)
    as [rows [Hrows HF]].
  { intros r Hr. destruct (Hcov r Hr) as [c [i [Hc [Hi Hv]]]].
    destruct (find_cls_decode cls_t1 cls_t2 c i Hdom Hnd1 Hnd2 Hc Hi)
      as [Hfind Hdec].
    eexists. split.
    - unfold change_rast_row. rewrite Hv, Hfind. cbn [bind]. reflexivity.
    - exists c, i. rewrite Hv. repeat split; try assumption.
      cbn [cls_entry cls_start cls_end]. f_equal.
      destruct (cat_value c =? cat_value i); reflexivity. }
  assert (Hcounts : map Count rows = map fr_Count tab).
  { apply Forall2_map_eq. eapply Forall2_impl; [|exact HF].
    intros r r' [c [i [_ [_ [_ [_ ->]]]]]]. reflexivity. }
  assert (Htotal : total_cells Count rows = total_cells fr_Count tab).
  { unfold total_cells. now rewrite Hcounts. }
  unfold change_rast. rewrite Hrows. cbn [bind].
  unfold change_rast_stats. rewrite stats_whole_table, Htotal.
  destruct (total_cells fr_Count tab =? 0) eqn:Hz;
    [apply Z.eqb_eq in Hz; contradiction|].
  eexists. split; [reflexivity|].
  eapply Forall2_compose_map; [exact HF|].
  intros r r' [c [i [Hc [Hi [Hv [Hdec ->]]]]]].
  exists c, i. cbn. repeat split; assumption.
Qed.

Lemma change_rast_covered_witness :
  exists out,
    change_rast [mkCategory 4 "Natural"; mkCategory 2 "Developed"]
                [mkCategory 4 "Natural"; mkCategory 2 "Developed"]
                [mkFreqRow 404 60; mkFreqRow 402 30; mkFreqRow 202 10] = Ok out /\
    Forall2 (change_rast_row_spec
               [mkCategory 4 "Natural"; mkCategory 2 "Developed"]
               [mkCategory 4 "Natural"; mkCategory 2 "Developed"] 100)
            [mkFreqRow 404 60; mkFreqRow 402 30; mkFreqRow 202 10] out.
Proof.
  apply (change_rast_covered
           [mkCategory 4 "Natural"; mkCategory 2 "Developed"]
           [mkCategory 4 "Natural"; mkCategory 2 "Developed"]
           [mkFreqRow 404 60; mkFreqRow 402 30; mkFreqRow 202 10]).
  - repeat constructor; unfold BASE; simpl; lia.
  - repeat constructor; simpl; intuition lia.
  - repeat constructor; simpl; intuition lia.
  - intros r [<-|[<-|[<-|[]]]].
    + exists (mkCategory 4 "Natural"), (mkCategory 4 "Natural").
      simpl. intuition.
    + exists (mkCategory 4 "Natural"), (mkCategory 2 "Developed").
      simpl. intuition.
    + exists (mkCategory 2 "Developed"), (mkCategory 2 "Developed").
      simpl. intuition.
  - vm_compute. discriminate.
Defined.

(** ** The percentages of [change_summary] *)

(** In [change_summary], when the rows of classes 1, 2, 3 have counts that
    do not sum to zero, the statistics return a table in which exactly
    these rows have a percentage, [Count / total * 100] with [total] the
    sum of their counts, and the rows of the other classes keep a null
    percentage: the percentages are shares of what was in the start
    classes in the first period, not of the whole raster. *)
Theorem change_summary_perc_of_t1_area (out_rast : list FreqRow) :
  total_cells fr_Count (filter value_in_1_2_3 out_rast) <> 0 ->
  change_summary_stats out_rast
  = Ok (map (fun r =>
               mkStatRow r (area_ha_expr (fr_Count r))
                 (if value_in_1_2_3 r
                  then Some (inject_Z (fr_Count r)
                             / inject_Z (total_cells fr_Count
                                           (filter value_in_1_2_3 out_rast))
                             * 100)%Q
                  else None))
            out_rast).
Proof.
  intros HT. unfold change_summary_stats.
  rewrite calc_perc_ok by exact HT.
  f_equal. apply map_ext. intros r.
  destruct (value_in_1_2_3 r); reflexivity.
Qed.

Lemma change_summary_perc_of_t1_area_witness :
  change_summary_stats
    [mkFreqRow 0 500; mkFreqRow 1 70; mkFreqRow 2 20; mkFreqRow 3 10;
     mkFreqRow 4 5]
  = Ok [mkStatRow (mkFreqRow 0 500) (area_ha_expr 500) None;
        mkStatRow (mkFreqRow 1 70) (area_ha_expr 70)
          (Some (inject_Z 70 / inject_Z 100 * 100)%Q);
        mkStatRow (mkFreqRow 2 20) (area_ha_expr 20)
          (Some (inject_Z 20 / inject_Z 100 * 100)%Q);
        mkStatRow (mkFreqRow 3 10) (area_ha_expr 10)
          (Some (inject_Z 10 / inject_Z 100 * 100)%Q);
        mkStatRow (mkFreqRow 4 5) (area_ha_expr 5) None].
Proof.
  apply (change_summary_perc_of_t1_area
           [mkFreqRow 0 500; mkFreqRow 1 70; mkFreqRow 2 20; mkFreqRow 3 10;
            mkFreqRow 4 5]).
  vm_compute. discriminate.
Defined.

(** ** Errors and invariants of [change_to_from] *)

Lemma int_digits_raises (s : string) (acc : Z) (e : PyErr) :
  int_digits s acc = Err e -> e = ValueError.
Proof.
  revert acc. induction s as [|c s IH]; intros acc; simpl.
  - discriminate.
  - destruct (digit_val c); [apply IH | congruence].
Qed.

Lemma py_int_raises (s : string) (e : PyErr) :
  py_int s = Err e -> e = ValueError.
Proof.
  destruct s as [|c s]; [simpl; congruence|].
  destruct c as [[] [] [] [] [] [] [] []]; destruct s as [|c' s];
    cbn -[int_digits];
    try congruence;
    try apply int_digits_raises;
    (destruct (int_digits _ _) as [n|e'] eqn:Hd; cbn;
       [discriminate | apply int_digits_raises in Hd; congruence]).
Qed.

Lemma change_to_from_row_raises (start_cls : list Z) (nm repl : string)
    (r : ChgRow) (e : PyErr) :
  change_to_from_row start_cls nm repl r = Err e -> e = ValueError.
Proof.
  unfold change_to_from_row.
  destruct (py_in (start_class r) start_cls), (py_in (end_class r) start_cls);
    try discriminate.
  - destruct (py_int repl) as [r0|e0] eqn:H0; cbn;
      [|intros H; injection H as <-; eapply py_int_raises; eassumption].
    destruct (py_int (repl ++ _)) as [r4|e4] eqn:H4; cbn; [discriminate|].
    intros H; injection H as <-. eapply py_int_raises; eassumption.
  - destruct (py_int repl) as [r0|e0] eqn:H0; cbn;
      [|intros H; injection H as <-; eapply py_int_raises; eassumption].
    destruct (py_int (_ ++ repl)) as [r4|e4] eqn:H4; cbn; [discriminate|].
    intros H; injection H as <-. eapply py_int_raises; eassumption.
Qed.

Lemma py_str_neg (n : Z) :
  n < 0 -> exists ds, py_str n = String "-"%char ds.
Proof.
  intros Hn. unfold py_str.
  destruct (n <? 0) eqn:Hlt; [eauto | apply Z.ltb_ge in Hlt; lia].
Qed.

(** [int(str(a) + str(b))] with [b] negative: the minus sign in the middle
    is not a digit. *)
Lemma py_int_concat_neg (a b : Z) :
  0 <= a -> b < 0 -> py_int (py_str a ++ py_str b) = Err ValueError.
Proof.
  intros Ha Hb.
  rewrite py_int_digits
    by (apply starts_with_digit_app, py_str_starts; assumption).
  rewrite int_digits_app, int_digits_py_str by assumption. cbn [bind].
  destruct (py_str_neg b Hb) as [ds ->]. reflexivity.
Qed.

(** A row that leaves the target for a negative end class, or enters a
    negative first target value from a non-negative start class, makes
    [change_to_from] raise [ValueError]: no code is made up for it. *)
Theorem change_to_from_negative_raises (t : Z) (rest : list Z) (nm : string)
    (chg_rast : list ChgRow) (r : ChgRow) :
  In r chg_rast ->
  (In (start_class r) (t :: rest) /\ ~ In (end_class r) (t :: rest) /\
   0 <= t /\ end_class r < 0) \/
  (~ In (start_class r) (t :: rest) /\ In (end_class r) (t :: rest) /\
   0 <= start_class r /\ t < 0) ->
  change_to_from_tab (t :: rest) nm chg_rast = Err ValueError.
Proof.
  intros Hin Hcase. unfold change_to_from_tab. cbn [py_first bind].
  apply for_rows_err.
  - intros r0 e'. apply change_to_from_row_raises.
  - exists r. split; [assumption|].
    unfold change_to_from_row.
    destruct Hcase as [[Hsc [Hec [Ht Hneg]]] | [Hsc [Hec [Hpos Hneg]]]].
    + apply py_in_true in Hsc. apply py_in_false in Hec. rewrite Hsc, Hec.
      rewrite py_int_py_str, py_int_concat_neg by assumption. reflexivity.
    + apply py_in_false in Hsc. apply py_in_true in Hec. rewrite Hsc, Hec.
      rewrite py_int_concat_neg by assumption.
      destruct (py_int (py_str t)) as [r2|e] eqn:H2; cbn; [reflexivity|].
      f_equal. eapply py_int_raises; eassumption.
Qed.

Lemma change_to_from_negative_raises_witness :
  change_to_from_tab [4] "Natural"
    [mkChgRow 404 10 4 "Natural" 4 "Natural" "No change";
     mkChgRow 399 10 4 "Natural" (-1) "Missing" "Natural to Missing"]
  = Err ValueError.
Proof.
  apply (change_to_from_negative_raises 4 [] "Natural" _
           (mkChgRow 399 10 4 "Natural" (-1) "Missing" "Natural to Missing")).
  - simpl. tauto.
  - left. simpl. intuition lia.
Defined.

Lemma change_to_from_row_keeps (start_cls : list Z) (nm repl : string)
    (r : ChgRow) (o : TmpRow) :
  change_to_from_row start_cls nm repl r = Ok o ->
  Value (tmp_row o) = Value r /\ Count (tmp_row o) = Count r /\
  (py_in (start_class r) start_cls = false ->
   py_in (end_class r) start_cls = false ->
   reclass o = 0 /\
   start_class (tmp_row o) = start_class r /\
   start_class_name (tmp_row o) = start_class_name r /\
   end_class (tmp_row o) = end_class r /\
   end_class_name (tmp_row o) = end_class_name r).
Proof.
  unfold change_to_from_row.
  destruct (py_in (start_class r) start_cls), (py_in (end_class r) start_cls).
  - intros H; injection H as <-. cbn. repeat split; discriminate.
  - destruct (py_int repl); cbn; [|discriminate].
    destruct (py_int (repl ++ _)); cbn; [|discriminate].
    intros H; injection H as <-. cbn. repeat split; discriminate.
  - destruct (py_int repl); cbn; [|discriminate].
    destruct (py_int (_ ++ repl)); cbn; [|discriminate].
    intros H; injection H as <-. cbn. repeat split; discriminate.
  - intros H; injection H as <-. cbn. repeat split; reflexivity.
Qed.

(** Whenever [change_to_from] builds its table, the table has one row per
    row of the change raster, in the same order, with the same value and
    count; a row with neither class in the target keeps its classes and
    names and gets the code 0. *)
Theorem change_to_from_tab_keeps (start_cls : list Z) (nm : string)
    (chg_rast : list ChgRow) (tab : list TmpRow) :
  change_to_from_tab start_cls nm chg_rast = Ok tab ->
  Forall2 (fun r o =>
      Value (tmp_row o) = Value r /\ Count (tmp_row o) = Count r /\
      (~ In (start_class r) start_cls -> ~ In (end_class r) start_cls ->
       reclass o = 0 /\
       start_class (tmp_row o) = start_class r /\
       start_class_name (tmp_row o) = start_class_name r /\
       end_class (tmp_row o) = end_class r /\
       end_class_name (tmp_row o) = end_class_name r))
    chg_rast tab.
Proof.
  unfold change_to_from_tab.
  destruct (py_first start_cls) as [t|e]; cbn [bind]; [|discriminate].
  intros H. apply for_rows_Forall2 in H.
  eapply Forall2_impl; [|exact H].
  intros r o Hro. apply change_to_from_row_keeps in Hro.
  destruct Hro as [Hv [Hc Hout]]. repeat split; try assumption;
    apply Hout; apply py_in_false; assumption.
Qed.

Lemma change_to_from_tab_keeps_witness :
  Forall2 (fun r o =>
      Value (tmp_row o) = Value r /\ Count (tmp_row o) = Count r /\
      (~ In (start_class r) [4] -> ~ In (end_class r) [4] ->
       reclass o = 0 /\
       start_class (tmp_row o) = start_class r /\
       start_class_name (tmp_row o) = start_class_name r /\
       end_class (tmp_row o) = end_class r /\
       end_class_name (tmp_row o) = end_class_name r))
    [mkChgRow 402 10 4 "Natural" 2 "Developed" "Natural to Developed";
     mkChgRow 302 5 3 "Agriculture" 2 "Developed" "Agriculture to Developed"]
    [mkTmpRow (mkChgRow 402 10 4 "Natural" 2 "Developed"
                 "Natural to Developed") 42;
     mkTmpRow (mkChgRow 302 5 3 "Agriculture" 2 "Developed"
                 "Not Natural either time period") 0].
Proof.
  apply (change_to_from_tab_keeps [4] "Natural"). reflexivity.
Defined.

(** ** The codes of [change_to_from] on two-digit classes *)

Lemma collapse_row_cases (t : Z) (rest : list Z) (nm : string) (r : ChgRow) :
  10 <= t < 100 -> two_digit_classes r ->
  let o := collapse_row (t :: rest) nm t r in
  let sc := start_class r in
  let ec := end_class r in
  (py_in sc (t :: rest) = true /\ py_in ec (t :: rest) = true /\ reclass o = 1) \/
  (py_in sc (t :: rest) = true /\ py_in ec (t :: rest) = false /\
   reclass o = t * 100 + ec /\
   start_class (tmp_row o) = t /\ end_class (tmp_row o) = ec) \/
  (py_in sc (t :: rest) = false /\ py_in ec (t :: rest) = true /\
   reclass o = sc * 100 + t /\
   start_class (tmp_row o) = sc /\ end_class (tmp_row o) = t) \/
  (py_in sc (t :: rest) = false /\ py_in ec (t :: rest) = false /\ reclass o = 0).
Proof.
  intros Ht [Hsc Hec]. cbv zeta. unfold collapse_row, concat_collapse.
  rewrite (ndigits_2 t), (ndigits_2 (end_class r)) by assumption.
  destruct (py_in (start_class r) (t :: rest)),
           (py_in (end_class r) (t :: rest)); cbn; intuition.
Qed.

(** With a two-digit first target value and two-digit classes on every
    row, [change_to_from] builds a table in which a code is 0, 1 or a
    four-digit number, and two rows with the same four-digit code show the
    same pair of classes: the code identifies the transition whose name is
    later joined on it. *)
Theorem change_to_from_code_identifies (t : Z) (rest : list Z) (nm : string)
    (chg_rast : list ChgRow) :
  10 <= t < 100 -> Forall two_digit_classes chg_rast ->
  exists tab,
    change_to_from_tab (t :: rest) nm chg_rast = Ok tab /\
    (forall o, In o tab ->
       reclass o = 0 \/ reclass o = 1 \/ 1000 <= reclass o < 10000) /\
    (forall o1 o2, In o1 tab -> In o2 tab ->
       reclass o1 = reclass o2 -> 1 < reclass o1 ->
       start_class (tmp_row o1) = start_class (tmp_row o2) /\
       end_class (tmp_row o1) = end_class (tmp_row o2)).
Proof.
  intros Ht Hall.
  exists (map (collapse_row (t :: rest) nm t) chg_rast).
  rewrite Forall_forall in Hall.
  split; [|split].
  - apply change_to_from_tab_ok; [lia|].
    apply Forall_forall. intros r Hr. destruct (Hall r Hr). split; lia.
  - intros o Ho. apply in_map_iff in Ho as [r [<- Hr]].
    pose proof (Hall r Hr) as Hd. destruct Hd as [Hsc Hec].
    destruct (collapse_row_cases t rest nm r Ht (conj Hsc Hec))
      as [[_ [_ H]]|[[_ [_ [H _]]]|[[_ [_ [H _]]]|[_ [_ H]]]]];
      rewrite H; lia.
  - intros o1 o2 Ho1 Ho2.
    apply in_map_iff in Ho1 as [r1 [<- Hr1]].
    apply in_map_iff in Ho2 as [r2 [<- Hr2]].
    pose proof (Hall r1 Hr1) as [Hsc1 Hec1].
    pose proof (Hall r2 Hr2) as [Hsc2 Hec2].
    destruct (collapse_row_cases t rest nm r1 Ht (conj Hsc1 Hec1))
      as [[_ [_ H1]]|[[Ha1 [Hb1 [H1 [Hs1 He1]]]]
          |[[Ha1 [Hb1 [H1 [Hs1 He1]]]]|[_ [_ H1]]]]];
    destruct (collapse_row_cases t rest nm r2 Ht (conj Hsc2 Hec2))
      as [[_ [_ H2]]|[[Ha2 [Hb2 [H2 [Hs2 He2]]]]
          |[[Ha2 [Hb2 [H2 [Hs2 He2]]]]|[_ [_ H2]]]]];
    rewrite H1, H2; intros Heq Hgt; lia.
Qed.

Lemma change_to_from_code_identifies_witness :
  exists tab,
    change_to_from_tab [41; 42] "Forest"
      [mkChgRow 4121 10 41 "Deciduous Forest" 21 "Developed, Open Space"
                "Deciduous Forest to Developed, Open Space";
       mkChgRow 4221 10 42 "Evergreen Forest" 21 "Developed, Open Space"
                "Evergreen Forest to Developed, Open Space"] = Ok tab /\
    (forall o, In o tab ->
       reclass o = 0 \/ reclass o = 1 \/ 1000 <= reclass o < 10000) /\
    (forall o1 o2, In o1 tab -> In o2 tab ->
       reclass o1 = reclass o2 -> 1 < reclass o1 ->
       start_class (tmp_row o1) = start_class (tmp_row o2) /\
       end_class (tmp_row o1) = end_class (tmp_row o2)).
Proof.
  apply (change_to_from_code_identifies 41 [42] "Forest").
  - lia.
  - repeat constructor; simpl; lia.
Defined.

(** ** Cover classes and the general reclassification
       ([addCoverClass], [reclassGeneral]) *)

Lemma dict_get_fold (items : list (Z * string)) (val : Z) (acc : option string) :
  fold_left (fun found kv => if fst kv =? val then Some (snd kv) else found)
            items acc = None
  <-> acc = None /\ ~ In val (map fst items).
Proof.
  revert acc. induction items as [|[k name] items IH]; intros acc; simpl.
  - tauto.
  - rewrite IH. destruct (k =? val) eqn:Hk.
    + apply Z.eqb_eq in Hk. split; [intros [H _]; discriminate | tauto].
    + apply Z.eqb_neq in Hk. tauto.
Qed.

(** [d[val]] raises exactly on the keys never assigned. *)
Lemma dict_get_None (items : list (Z * string)) (val : Z) :
  dict_get items val = None <-> ~ In val (map fst items).
Proof. unfold dict_get. rewrite dict_get_fold. tauto. Qed.

Lemma remap_find_None (tab : remap) (v : Z) :
  ~ In v (map fst tab) -> remap_find tab v = None.
Proof.
  unfold remap_find. induction tab as [|[k new] tab IH]; simpl; intros Hn.
  - reflexivity.
  - destruct (k =? v) eqn:Hk.
    + apply Z.eqb_eq in Hk. tauto.
    + apply IH. tauto.
Qed.

(** A value with an NLCD cover class, other than 0, is reclassified to one
    of the general classes 1..6, for which the general schema has a name:
    on a raster holding NLCD classes only, [reclassGeneral] and the
    [addCoverClass] it ends with go through on every value. The value 0
    becomes NoData. *)
Theorem reclassGeneral_has_cover_class (v : Z) (name : string) :
  covClass "NLCD" v = Some name ->
  (v = 0 /\ reclassGeneral (Some v) = None) \/
  (exists g gname,
     reclassGeneral (Some v) = Some g /\ 1 <= g <= 6 /\
     covClass "Gen" g = Some gname).
Proof.
  intros Hname.
  assert (Hin : In v (map fst covClass_NLCD)).
  { destruct (in_dec Z.eq_dec v (map fst covClass_NLCD)) as [H|H]; [exact H|].
    apply dict_get_None in H. unfold covClass in Hname. simpl in Hname.
    congruence. }
  simpl in Hin.
  repeat (destruct Hin as [<-|Hin];
          [first [left; split; reflexivity
                 | right; do 2 eexists; split; [reflexivity|];
                   split; [lia | reflexivity]]|]).
  destruct Hin.
Qed.

Lemma reclassGeneral_has_cover_class_witness :
  (41 = 0 /\ reclassGeneral (Some 41) = None) \/
  (exists g gname,
     reclassGeneral (Some 41) = Some g /\ 1 <= g <= 6 /\
     covClass "Gen" g = Some gname).
Proof.
  apply (reclassGeneral_has_cover_class 41 "Deciduous Forest"). reflexivity.
Defined.

(** A value that the remap table of [reclassGeneral] does not list is kept
    as it is, and unless it is one of 1..6 the general schema has no name
    for it: the [addCoverClass] that ends [reclassGeneral] raises
    [KeyError] on it (for example on NLCD class 12). *)
Theorem reclassGeneral_unlisted_value (v : Z) :
  ~ In v (map fst reclassGeneral_rclsTab) ->
  reclassGeneral (Some v) = Some v /\
  (covClass "Gen" v = None <-> ~ (1 <= v <= 6)).
Proof.
  intros Hn. split.
  - unfold reclassGeneral, reclassify_DATA.
    rewrite remap_find_None by assumption. reflexivity.
  - unfold covClass. cbn [String.eqb Ascii.eqb Bool.eqb].
    rewrite dict_get_None. simpl in *. intuition lia.
Qed.

Lemma reclassGeneral_unlisted_value_witness :
  reclassGeneral (Some 12) = Some 12 /\
  (covClass "Gen" 12 = None <-> ~ (1 <= 12 <= 6)).
Proof.
  apply (reclassGeneral_unlisted_value 12). simpl. intuition lia.
Defined.

(** ** [reclassForestChange] *)

(** Within the clip shape (or with none given), a cell that is neither
    shrub/scrub (52) nor herbaceous (71) keeps its value, whatever the
    change product holds there, NoData included; outside the clip shape
    every cell comes out as NoData. *)
Theorem reclassForestChange_other_cells (inLC inChangeProd : option Z) :
  inLC <> Some 52 -> inLC <> Some 71 ->
  reclassForestChange true inLC inChangeProd = inLC /\
  reclassForestChange false inLC inChangeProd = None.
Proof.
  intros H52 H71. split; [|reflexivity]. unfold reclassForestChange.
  destruct inLC as [v|]; [|reflexivity]. cbn.
  destruct (v =? 52) eqn:E52; [apply Z.eqb_eq in E52; congruence|].
  destruct (v =? 71) eqn:E71; [apply Z.eqb_eq in E71; congruence|].
  reflexivity.
Qed.

Lemma reclassForestChange_other_cells_witness :
  reclassForestChange true (Some 41) None = Some 41 /\
  reclassForestChange false (Some 41) None = None.
Proof.
  apply (reclassForestChange_other_cells (Some 41) None); discriminate.
Defined.

(** What [reclassForestChange] can write on a cell that holds [v]. *)
Lemma reclassForestChange_cases (inside : bool) (v w : Z)
    (inChangeProd : option Z) :
  reclassForestChange inside (Some v) inChangeProd = Some w ->
  w = v \/ (inChangeProd = Some 11 /\ (v = 52 \/ v = 71) /\ w = v + 4).
Proof.
  unfold reclassForestChange. destruct inside; [|discriminate]. cbn.
  destruct (v =? 52) eqn:E52; destruct (v =? 71) eqn:E71; cbn;
    try (intros H; injection H as <-; left; reflexivity);
    (destruct inChangeProd as [c|]; cbn; [|discriminate];
     destruct (c =? 11) eqn:E11; cbn; intros H; injection H as <-;
     [right | left; reflexivity];
     apply Z.eqb_eq in E11; subst c;
     split; [reflexivity|]; split; [|reflexivity];
     first [left; apply Z.eqb_eq; assumption
           | right; apply Z.eqb_eq; assumption]).
Qed.

(** On a raster that does not already hold 56 or 75, the recoding can be
    undone: the value written is the old value, or the old value plus 4 on
    a 52 or 71 cell where the change product is 11, so 56 stands for 52 and
    75 for 71 and nothing else. *)
Theorem reclassForestChange_undo (inside : bool) (v w : Z)
    (inChangeProd : option Z) :
  v <> 56 -> v <> 75 ->
  reclassForestChange inside (Some v) inChangeProd = Some w ->
  undo_forest_change w = v /\
  (w = v \/ (inChangeProd = Some 11 /\ (v = 52 \/ v = 71) /\ w = v + 4)).
Proof.
  intros H56 H75 Hw.
  pose proof (reclassForestChange_cases inside v w inChangeProd Hw) as Hcase.
  split; [|exact Hcase].
  unfold undo_forest_change.
  destruct Hcase as [->|[_ [[->| ->] ->]]]; [|reflexivity|reflexivity].
  destruct (v =? 56) eqn:E; [apply Z.eqb_eq in E; contradiction|].
  destruct (v =? 75) eqn:E'; [apply Z.eqb_eq in E'; contradiction|].
  reflexivity.
Qed.

Lemma reclassForestChange_undo_witness :
  undo_forest_change 75 = 71 /\
  (75 = 71 \/ (Some 11 = Some 11 /\ (71 = 52 \/ 71 = 71) /\ 75 = 71 + 4)).
Proof.
  apply (reclassForestChange_undo true 71 75 (Some 11)); (lia || reflexivity).
Defined.

(** Every value [reclassForestChange] writes on a cell whose class has an
    NLCD name has an NLCD name too: the [addCoverClass] that ends the
    function finds the two added classes 56 and 75. *)
Theorem reclassForestChange_has_cover_class (inside : bool) (v w : Z)
    (inChangeProd : option Z) (name : string) :
  covClass "NLCD" v = Some name ->
  reclassForestChange inside (Some v) inChangeProd = Some w ->
  exists name', covClass "NLCD" w = Some name'.
Proof.
  intros Hname Hw.
  destruct (reclassForestChange_cases inside v w inChangeProd Hw)
    as [->|[_ [[->| ->] ->]]]; [eauto | | ]; eexists; reflexivity.
Qed.

Lemma reclassForestChange_has_cover_class_witness :
  exists name', covClass "NLCD" 56 = Some name'.
Proof.
  apply (reclassForestChange_has_cover_class true 52 56 (Some 11) "Shrub/Scrub");
    reflexivity.
Defined.

(** ** [reclassBarren] *)

(** A cell that is not barren (31) keeps its value, whatever the reference
    rasters hold there. *)
Theorem reclassBarren_other_cells (inRast refRast : option Z)
    (eDist32 : option Q) (exp31 : option Z) :
  inRast <> Some 31 ->
  reclassBarren inRast refRast eDist32 exp31 = inRast.
Proof.
  intros H31. unfold reclassBarren.
  destruct inRast as [v|]; [|reflexivity]. cbn.
  destruct (v =? 31) eqn:E; [apply Z.eqb_eq in E; congruence | reflexivity].
Qed.

Lemma reclassBarren_other_cells_witness :
  reclassBarren (Some 41) None None None = Some 41.
Proof.
  apply (reclassBarren_other_cells (Some 41) None None None). discriminate.
Defined.

Lemma cell_ltb_true (d k : Q) :
  cell_ltb (Some d) k = Some true <-> (d < k)%Q.
Proof.
  unfold cell_ltb, option_map. split.
  - intros H. injection H as H. apply negb_true_iff in H.
    apply Qnot_le_lt. intros Hle. apply Qle_bool_iff in Hle. congruence.
  - intros Hlt. f_equal. apply negb_true_iff.
    destruct (Qle_bool k d) eqn:E; [|reflexivity].
    apply Qle_bool_iff in E. exfalso. apply (Qlt_not_le _ _ Hlt). exact E.
Qed.

(** A barren cell, when the expanded reference raster holds 31 or 32
    there, comes out as 31 or 32: 31 where the reference raster has 31, 32
    where it has 32 or where a reference cell of class 32 is less than 100
    away; and it comes out as a value only where the reference raster has
    data. *)
Theorem reclassBarren_barren_cell (refRast : option Z) (eDist32 : option Q)
    (exp31 : option Z) (w : Z) :
  (forall x, exp31 = Some x -> x = 31 \/ x = 32) ->
  reclassBarren (Some 31) refRast eDist32 exp31 = Some w ->
  (w = 31 \/ w = 32) /\
  refRast <> None /\
  (refRast = Some 31 -> w = 31) /\
  (refRast = Some 32 -> w = 32) /\
  (forall d, refRast <> Some 31 -> eDist32 = Some d -> (d < 100)%Q -> w = 32).
Proof.
  intros Hexp. unfold reclassBarren. cbn.
  destruct refRast as [r|]; cbn; [|discriminate].
  destruct (r =? 31) eqn:E31; cbn.
  { apply Z.eqb_eq in E31. subst r. intros H; injection H as <-.
    repeat split; intros; (lia || congruence). }
  apply Z.eqb_neq in E31.
  destruct (r =? 32) eqn:E32; cbn.
  { apply Z.eqb_eq in E32. subst r. intros H; injection H as <-.
    repeat split; intros; (lia || congruence). }
  apply Z.eqb_neq in E32.
  destruct eDist32 as [d|]; [|discriminate].
  destruct (cell_ltb (Some d) 100) as [[|]|] eqn:Elt; cbn.
  - intros H; injection H as <-.
    repeat split; intros; (lia || congruence).
  - intros Hw. pose proof (Hexp w Hw) as Hcase.
    repeat split; try (intros; congruence); try assumption.
    intros d' _ Hd' Hlt. injection Hd' as <-.
    apply cell_ltb_true in Hlt. congruence.
  - discriminate.
Qed.

Lemma reclassBarren_barren_cell_witness :
  (32 = 31 \/ 32 = 32) /\
  Some 41 <> None /\
  (Some 41 = Some 31 -> 32 = 31) /\
  (Some 41 = Some 32 -> 32 = 32) /\
  (forall d, Some 41 <> Some 31 -> Some 60%Q = Some d -> (d < 100)%Q -> 32 = 32).
Proof.
  apply (reclassBarren_barren_cell (Some 41) (Some 60%Q) (Some 31) 32).
  - intros x H. injection H as <-. left. reflexivity.
  - reflexivity.
Defined.



(** The first step of [reclassBarren], for either schema: a reference value
    the table lists becomes 31, 32 or (for 0) NoData; a value the table
    does not list is kept, so the rasters derived from the result can hold
    values other than 31 and 32 only there. *)
Theorem reclassBarren_ref_values (schema : string) (v w : Z) :
  reclassBarren_ref schema (Some v) = Some w ->
  w = 31 \/ w = 32 \/
  (w = v /\ ~ In v (map fst (reclassBarren_rclsTab schema))).
Proof.
  unfold reclassBarren_ref, reclassify_DATA, remap_find, reclassBarren_rclsTab.
  destruct (String.eqb schema "1992"); cbn [find fst snd option_map map];
    repeat match goal with
      | |- context [?k =? v] =>
          destruct (k =? v) eqn:?;
          [cbn; intros H; first [discriminate H | injection H as <-]; lia|]
      end;
    (cbn; intros H; injection H as <-; right; right; split; [reflexivity|]);
    repeat match goal with
      | E : (_ =? _) = false |- _ => apply Z.eqb_neq in E
      end;
    simpl; intuition lia.
Qed.

Lemma reclassBarren_ref_values_witness :
  12 = 31 \/ 12 = 32 \/
  (12 = 12 /\ ~ In 12 (map fst (reclassBarren_rclsTab "2001"))).
Proof.
  apply (reclassBarren_ref_values "2001" 12 12). reflexivity.
Defined.

(** ** [GetElapsedTime] *)

(** For the seconds field of a time difference (0 to 86399), the hours,
    minutes and seconds of the message are in range and add up to it; the
    days are passed through. *)
Theorem GetElapsedTime_fields_sound (days seconds : Z) :
  0 <= seconds < 86400 ->
  let '(d, h, m, s) := GetElapsedTime_fields days seconds in
  d = days /\ 0 <= h < 24 /\ 0 <= m < 60 /\ 0 <= s < 60 /\
  h * 3600 + m * 60 + s = seconds.
Proof.
  intros Hs. unfold GetElapsedTime_fields. cbv zeta.
  pose proof (Z.div_mod seconds 60 ltac:(lia)) as H1.
  pose proof (Z.mod_pos_bound seconds 60 ltac:(lia)) as H2.
  pose proof (Z.div_mod (seconds / 60) 60 ltac:(lia)) as H3.
  pose proof (Z.mod_pos_bound (seconds / 60) 60 ltac:(lia)) as H4.
  repeat split; try lia.
Qed.

Lemma GetElapsedTime_fields_sound_witness :
  let '(d, h, m, s) := GetElapsedTime_fields 2 3725 in
  d = 2 /\ 0 <= h < 24 /\ 0 <= m < 60 /\ 0 <= s < 60 /\
  h * 3600 + m * 60 + s = 3725.
Proof.
  apply (GetElapsedTime_fields_sound 2 3725). lia.
Defined.

(** ** What each class of [change_summary] means *)

(** The class of a row, whatever the order of the tests: 1, 2, 3 split the
    rows that start in a start class by where they end (a start class; an
    end class that is not a start class; neither); 4 and 5 split the rows
    that enter a start class from outside by where they start (5 only with
    [backwards] on, for a start in neither list); 0 is the rows with
    neither class a start class. *)
Theorem reclass_of_classes (start_cls end_cls : list Z) (backwards : bool)
    (sc ec : Z) :
  let c := reclass_of start_cls end_cls backwards sc ec in
  (c = 1 <-> In sc start_cls /\ In ec start_cls) /\
  (c = 2 <-> In sc start_cls /\ ~ In ec start_cls /\ In ec end_cls) /\
  (c = 3 <-> In sc start_cls /\ ~ In ec start_cls /\ ~ In ec end_cls) /\
  (c = 4 <-> ~ In sc start_cls /\ In ec start_cls /\
             (In sc end_cls \/ backwards = false)) /\
  (c = 5 <-> ~ In sc start_cls /\ In ec start_cls /\
             ~ In sc end_cls /\ backwards = true) /\
  (c = 0 <-> ~ In sc start_cls /\ ~ In ec start_cls).
Proof.
  cbv zeta. rewrite <- !py_in_false, <- !py_in_true.
  unfold reclass_of. rewrite !py_in_app.
  destruct (py_in sc start_cls), (py_in ec start_cls), (py_in ec end_cls),
    (py_in sc end_cls), backwards; cbn;
    repeat split; intros; intuition (discriminate || lia || congruence).
Qed.

(** ** [change_rast] followed by [change_summary] *)

(** On a table the categories cover, the class [change_summary] gives to a
    row of the change raster that [change_rast] has filled is the class of
    the pair obtained by decoding the row's value: the two fields it reads
    carry exactly what the combined code holds. *)
Theorem change_summary_after_change_rast (cls_t1 cls_t2 : list Category)
    (tab : list FreqRow) (start_cls end_cls : list Z) (backwards : bool) :
  Forall (fun i => in_domain (cat_value i)) cls_t2 ->
  NoDup (map cat_value cls_t1) -> NoDup (map cat_value cls_t2) ->
  (forall r, In r tab ->
     exists c i, In c cls_t1 /\ In i cls_t2 /\
       fr_Value r = encode (cat_value c) (cat_value i)) ->
  total_cells fr_Count tab <> 0 ->
  exists out,
    change_rast cls_t1 cls_t2 tab = Ok out /\
    map (fun t => (Value (tmp_row t), reclass t))
        (change_summary_tab start_cls end_cls backwards (map st_row out))
    = map (fun r => (fr_Value r,
                     reclass_of start_cls end_cls backwards
                       (fst (decode (fr_Value r))) (snd (decode (fr_Value r)))))
          tab.
Proof.
  intros Hdom Hnd1 Hnd2 Hcov Htot.
  destruct (change_rast_covered cls_t1 cls_t2 tab Hdom Hnd1 Hnd2 Hcov Htot)
    as [out [Hout HF]].
  exists out. split; [exact Hout|].
  unfold change_summary_tab. rewrite !map_map. cbn [tmp_row reclass].
  clear Hout Hcov Htot.
  induction HF as [|r s tab' out' Hrs _ IH]; cbn [map]; [reflexivity|].
  rewrite IH.
  destruct Hrs as [c [i [_ [_ [_ [Hdec [Hrow _]]]]]]].
  rewrite Hrow, Hdec. reflexivity.
Qed.

Lemma change_summary_after_change_rast_witness :
  exists out,
    change_rast [mkCategory 4 "Natural"; mkCategory 2 "Developed"]
                [mkCategory 4 "Natural"; mkCategory 2 "Developed"]
                [mkFreqRow 404 60; mkFreqRow 402 30; mkFreqRow 204 10] = Ok out /\
    map (fun t => (Value (tmp_row t), reclass t))
        (change_summary_tab [4] [2] false (map st_row out))
    = map (fun r => (fr_Value r,
                     reclass_of [4] [2] false
                       (fst (decode (fr_Value r))) (snd (decode (fr_Value r)))))
          [mkFreqRow 404 60; mkFreqRow 402 30; mkFreqRow 204 10].
Proof.
  apply (change_summary_after_change_rast
           [mkCategory 4 "Natural"; mkCategory 2 "Developed"]
           [mkCategory 4 "Natural"; mkCategory 2 "Developed"]
           [mkFreqRow 404 60; mkFreqRow 402 30; mkFreqRow 204 10]
           [4] [2] false).
  - repeat constructor; unfold BASE; simpl; lia.
  - repeat constructor; simpl; intuition lia.
  - repeat constructor; simpl; intuition lia.
  - intros r [<-|[<-|[<-|[]]]].
    + exists (mkCategory 4 "Natural"), (mkCategory 4 "Natural").
      simpl. intuition.
    + exists (mkCategory 4 "Natural"), (mkCategory 2 "Developed").
      simpl. intuition.
    + exists (mkCategory 2 "Developed"), (mkCategory 4 "Natural").
      simpl. intuition.
  - vm_compute. discriminate.
Defined.

(** ** The land-type rasters of [ReClassifyNLCD.py] *)

(** The six rasters have data on the same cells, those holding one of the
    sixteen listed classes; on such a cell at most one of the wetland,
    open, water and shrub rasters is 1 (the others 0), and the deciduous
    and evergreen rasters add up to 100 on a forest cell (41, 42, 43) and
    to 0 elsewhere. *)
Theorem land_type_rasters (v : Z) :
  let wet := reclassify_NODATA remap_wetland (Some v) in
  let opn := reclassify_NODATA remap_Open (Some v) in
  let wat := reclassify_NODATA remap_water (Some v) in
  let shb := reclassify_NODATA remap_ShrubScrub (Some v) in
  let dfr := reclassify_NODATA remap_decidmix (Some v) in
  let efr := reclassify_NODATA remap_evermix (Some v) in
  (In v nlcd_classes \/
   (wet = None /\ opn = None /\ wat = None /\ shb = None /\
    dfr = None /\ efr = None)) /\
  (In v nlcd_classes ->
   wet <> None /\ opn <> None /\ wat <> None /\ shb <> None /\
   dfr <> None /\ efr <> None /\
   0 <= cell_or_0 wet + cell_or_0 opn + cell_or_0 wat + cell_or_0 shb <= 1 /\
   cell_or_0 dfr + cell_or_0 efr
   = if (v =? 41) || (v =? 42) || (v =? 43) then 100 else 0).
Proof.
  cbv zeta.
  destruct (in_dec Z.eq_dec v nlcd_classes) as [Hin|Hnot].
  - split; [left; exact Hin|]. intros _. simpl in Hin.
    repeat (destruct Hin as [<-|Hin];
            [vm_compute; repeat split; discriminate|]).
    destruct Hin.
  - split; [|contradiction]. right.
    unfold reclassify_NODATA.
    rewrite !remap_find_None by exact Hnot.
    repeat split; reflexivity.
Qed.
